(** * Sefro: the e-mail verification-code lifecycle

    A shallow embedding of the verification-code logic of the Sefro API
    ([api/models.py], [api/utils.py], [api/views.py],
    [api/verification_email.py]) and the properties its specification
    states about issuing, validating and consuming a code.

    Conventions of the embedding:
    - a [datetime] is an integer count of microseconds (the resolution of
      Python's [datetime]); a [timedelta] is a difference of two of them;
    - [timezone.now()] is an explicit argument [now] of every function
      that reads the clock, one instant for all the readings that one
      call makes ([Readings] has them one by one);
    - the table behind [User.objects] and the global [random] generator
      make up a [World] that is threaded through every function that
      touches either (the state monad [M]);
    - a Python method that mutates [self] returns the updated object. *)

From Stdlib Require Import ZArith String Ascii List Bool Lia.
From stdpp Require Import base option gmap strings pretty.
Import ListNotations.

Local Open Scope string_scope.
Local Open Scope Z_scope.

(** ** Time *)

Module Clock.

Definition datetime := Z.
Definition timedelta := Z.

(** [datetime.timedelta(seconds=s)] for an integer [s]. *)
Definition seconds (s : Z) : timedelta := s * 1000000.

(** [delta.total_seconds() > timeout].  Python divides the microsecond
    count by 10**6 (correctly rounded) and compares the float with the
    integer exactly; for every timeout from 0 up to, and not including,
    2**34 seconds that is the comparison of the two microsecond counts
    written here ([total_seconds_gt_is_the_float_comparison] below, over
    the rounding of [Binary64]). *)
Definition total_seconds_gt (delta : timedelta) (timeout : Z) : bool :=
  seconds timeout <? delta.

End Clock.
Export Clock.

(** ** Settings read through [getattr(settings, NAME, default)] *)

Record Settings := mkSettings {
  EMAIL_VERIFICATION_TIMEOUT : option Z;
  VERIFICATION_CODE_LENGTH : option Z
}.

Definition getattr {A : Type} (attr : option A) (default : A) : A :=
  match attr with
  | Some v => v
  | None => default
  end.

(** A project that sets neither name: the defaults 3600 and 6 apply. *)
Definition no_settings : Settings :=
  {| EMAIL_VERIFICATION_TIMEOUT := None; VERIFICATION_CODE_LENGTH := None |}.

(** ** The random generator

    Both generators of the repository draw one decimal digit at a time:
    [random.choices(string.digits, k=length)] indexes ["0123456789"] with
    [floor(random() * 10)], and [random.randint(0, 9)] is printed with
    [str].  A draw is therefore a value of [Digit]; the generator state is
    the (arbitrary) sequence of draws still to come. *)

Module Rand.

Inductive Digit := D0 | D1 | D2 | D3 | D4 | D5 | D6 | D7 | D8 | D9.

(** [string.digits[i]], equally [str(i)] for [0 <= i <= 9]. *)
Definition digit_char (d : Digit) : ascii :=
  match d with
  | D0 => "0" | D1 => "1" | D2 => "2" | D3 => "3" | D4 => "4"
  | D5 => "5" | D6 => "6" | D7 => "7" | D8 => "8" | D9 => "9"
  end%char.

Record Random := mkRandom {
  tape : nat -> Digit;
  cursor : nat
}.

Definition draw (g : Random) : Digit * Random :=
  (tape g (cursor g), {| tape := tape g; cursor := S (cursor g) |}).

(** [[f() for _ in range(k)]] where every [f()] is one draw. *)
Fixpoint draws (g : Random) (k : nat) : list Digit * Random :=
  match k with
  | O => ([], g)
  | S k' =>
      let (d, g1) := draw g in
      let (ds, g2) := draws g1 k' in
      (d :: ds, g2)
  end.

(** [random.choices(string.digits, k=k)]; a negative [k] repeats zero
    times. *)
Definition choices_digits (g : Random) (k : Z) : list ascii * Random :=
  let (ds, g') := draws g (Z.to_nat k) in (map digit_char ds, g').

(** [''.join(chars)] *)
Definition join (chars : list ascii) : string := string_of_list_ascii chars.

Definition is_decimal_digit (c : ascii) : bool :=
  (48 <=? nat_of_ascii c)%nat && (nat_of_ascii c <=? 57)%nat.

Fixpoint all_digits (s : string) : bool :=
  match s with
  | EmptyString => true
  | String c s' => is_decimal_digit c && all_digits s'
  end.

End Rand.
Export Rand.

(** ** [api/models.py]: the [User] model

    Only the columns that the verification lifecycle reads or writes are
    kept, together with [username], which [save] may rewrite, and
    [updated_at], which every [save] stamps ([auto_now=True]). *)

Record User := mkUser {
  username : string;
  email : string;
  updated_at : datetime;
  is_email_verified : bool;
  verification_code : option string;
  verification_code_created : option datetime
}.

(** ** The world: the user table and the generator

    Rows are keyed by [email], which is unique and which no function
    below changes.  The store never fails on a write; the length limit of
    the [verification_code] column, which only some databases enforce, is
    not modelled. *)

Record World := mkWorld {
  users : gmap string User;
  random : Random
}.

Module StateMonad.

Definition M (A : Type) : Type := World -> A * World.

Definition ret {A : Type} (a : A) : M A := fun w => (a, w).

Definition bind {A B : Type} (m : M A) (k : A -> M B) : M B :=
  fun w => let (a, w') := m w in k a w'.

(** Run a computation that only uses the generator. *)
Definition with_random {A : Type} (f : Random -> A * Random) : M A :=
  fun w => let (a, g') := f (random w) in
           (a, {| users := users w; random := g' |}).

(** [User.objects.get(email=email)]; [None] is [User.DoesNotExist]. *)
Definition objects_get (email : string) : M (option User) :=
  fun w => (users w !! email, w).

(** The framework's [Model.save]: write the row. *)
Definition write_row (row : User) : M unit :=
  fun w => (tt, {| users := <[email row := row]> (users w); random := random w |}).

(** [User.objects.filter(username=username).exists()], equally what the
    store looks for when it enforces [unique=True] on [username]. *)
Definition username_exists (name : string) : M bool :=
  fun w => (existsb (fun row : User => String.eqb (username row) name)
              (map_to_list (users w)).*2, w).

End StateMonad.
Export StateMonad.

Declare Scope monad_scope.
Delimit Scope monad_scope with monad.
Notation "'do' x <- m ; k" := (bind m (fun x => k))
  (at level 10, x name, m at level 100, k at level 200) : monad_scope.
Notation "'call' m ; k" := (bind m (fun _ => k))
  (at level 10, m at level 100, k at level 200) : monad_scope.
Local Open Scope monad_scope.

(** ** [api/utils.py] *)

Module Utils.

(** [generate_verification_code(length=None)] *)
Definition generate_verification_code
    (settings : Settings) (length : option Z) : M string :=
  let length :=
    match length with
    | None => getattr (VERIFICATION_CODE_LENGTH settings) 6
    | Some n => n
    end in
  do chars <- with_random (fun g => choices_digits g length);
  ret (join chars).

End Utils.

(** ** Methods of [User] and [UserManager] *)

Module UserModel.

Definition with_code
    (code : option string) (created : option datetime) (self : User) : User :=
  {| username := username self;
     email := email self;
     updated_at := updated_at self;
     is_email_verified := is_email_verified self;
     verification_code := code;
     verification_code_created := created |}.

(** The setter of the [is_verified] property, equally an assignment to
    [is_email_verified]. *)
Definition with_verified (value : bool) (self : User) : User :=
  {| username := username self;
     email := email self;
     updated_at := updated_at self;
     is_email_verified := value;
     verification_code := verification_code self;
     verification_code_created := verification_code_created self |}.

(** The getter of the [is_verified] property. *)
Definition is_verified (self : User) : bool := is_email_verified self.

(** [User.save]: fill an empty [username] from a non-empty [email]; the
    framework then stamps [updated_at] and writes the row. *)
Definition save (now : datetime) (self : User) : M User :=
  let self :=
    {| username :=
         if String.eqb (username self) "" && negb (String.eqb (email self) "")
         then email self else username self;
       email := email self;
       updated_at := now;
       is_email_verified := is_email_verified self;
       verification_code := verification_code self;
       verification_code_created := verification_code_created self |} in
  call write_row self;
  ret self.

(** [UserManager.create_user(email, password, **extra_fields)].  [None]
    stands for the exception raised: [ValueError] on an empty e-mail, or
    the [IntegrityError] of the store refusing a second row with the same
    unique e-mail or the same unique username (the username as [save]
    leaves it).  [normalize_email] is the framework's and is taken as a
    parameter; the password hash is not among the modelled columns.  The
    extra fields are the two that callers in the repository pass and this
    model keeps; both verification columns start out [NULL]. *)
Definition create_user
    (normalize_email : string -> string)
    (now : datetime) (email username : string) (verified : bool) : M (option User) :=
  if String.eqb email "" then ret None
  else
    let email := normalize_email email in
    do existing <- objects_get email;
    match existing with
    | Some _ => ret None
    | None =>
        do taken <- username_exists
                      (if String.eqb username "" && negb (String.eqb email "")
                       then email else username);
        if taken then ret None
        else
          do user <- save now {| username := username;
                                 email := email;
                                 updated_at := now;
                                 is_email_verified := verified;
                                 verification_code := None;
                                 verification_code_created := None |};
          ret (Some user)
    end.

Definition set_verification_code
    (now : datetime) (code : string) (self : User) : M User :=
  save now (with_code (Some code) (Some now) self).

Definition clear_verification_code (now : datetime) (self : User) : M User :=
  save now (with_code None None self).

(** Python's [not self.verification_code]: true for [None] and for the
    empty string. *)
Definition not_str (v : option string) : bool :=
  match v with
  | None => true
  | Some s => String.eqb s ""
  end.

(** [not self.verification_code_created]: a [datetime] is always truthy. *)
Definition not_datetime (v : option datetime) : bool :=
  match v with
  | None => true
  | Some _ => false
  end.

Definition is_verification_code_valid
    (settings : Settings) (now : datetime) (self : User) (code : string) : bool :=
  if not_str (verification_code self) || not_datetime (verification_code_created self)
  then false
  else
    match verification_code self, verification_code_created self with
    | Some stored, Some created =>
        let timeout := getattr (EMAIL_VERIFICATION_TIMEOUT settings) 3600 in
        let is_expired := total_seconds_gt (now - created) timeout in
        negb is_expired && String.eqb stored code
    | _, _ => false
    end.

(** [User.generate_verification_code]: six [random.randint(0, 9)]. *)
Definition generate_verification_code
    (now : datetime) (self : User) : M (string * User) :=
  do ds <- with_random (fun g => draws g 6);
  let code := join (map digit_char ds) in
  do self <- save now (with_code (Some code) (Some now) self);
  ret (code, self).

Definition verify_code
    (settings : Settings) (now : datetime) (self : User) (code : string) : bool :=
  is_verification_code_valid settings now self code.

End UserModel.

(** ** HTTP plumbing shared by the views *)

Inductive Json :=
| JStr (s : string)
| JBool (b : bool)
| JUser (username email : string) (is_email_verified : bool)
| JVerification (email_status email_sent_to : string) (expires_in_hours : Z)
| JRefreshToken (user_email : string)   (* str(RefreshToken.for_user(user)) *)
| JAccessToken (user_email : string).   (* str(refresh.access_token) *)

Record Response := mkResponse {
  data : list (string * Json);
  status : Z
}.

(** What the framework answers when a view lets an exception escape. *)
Definition server_error : Response := {| data := []; status := 500 |}.

(** The JSON body of a request, as far as the views read it: the values
    under ['email'] and ['code'], [None] when the key is missing. *)
Record Payload := mkPayload {
  payload_email : option string;
  payload_code : option string
}.

(** [UserSerializer(user).data], restricted to the modelled columns. *)
Definition UserSerializer_data (user : User) : Json :=
  JUser (username user) (email user) (is_email_verified user).

(** The value stored under [key] in a response body. *)
Fixpoint body_get (key : string) (body : list (string * Json)) : option Json :=
  match body with
  | [] => None
  | (k, v) :: rest => if String.eqb k key then Some v else body_get key rest
  end.

(** The mail collaborator, [utils.send_verification_email(user, code)]:
    all a view observes is whether it raised, and with which text. *)
Definition MailOutcome := option string.

Import UserModel.

(** ** [api/views.py] *)

Module Views.

(** Lines 592-618 of [verify_email]: what the view does once the user
    has been fetched.  The object the view holds at the end is returned
    with the response.  [now] stands for every reading of the clock that
    these lines make (the validity check and the two [save]s);
    [Readings.verify_email_user] below keeps the readings apart. *)
Definition verify_email_user
    (settings : Settings) (now : datetime) (user : User) (code : string)
    : M (Response * User) :=
  if is_email_verified user then
    ret ({| data := [("message", JStr "ایمیل شما قبلاً تأیید شده است.");
                     ("code", JStr "already_verified");
                     ("user", UserSerializer_data user)];
            status := 200 |}, user)
  else if negb (is_verification_code_valid settings now user code) then
    ret ({| data := [("error", JStr "کد تأیید نامعتبر یا منقضی شده است.");
                     ("code", JStr "invalid_code")];
            status := 400 |}, user)
  else
    let user := with_verified true user in
    do user <- clear_verification_code now user;
    do user <- save now user;
    ret ({| data := [("message", JStr "ایمیل شما با موفقیت تأیید شد.");
                     ("code", JStr "success");
                     ("refresh", JRefreshToken (email user));
                     ("access", JAccessToken (email user));
                     ("user", UserSerializer_data user)];
            status := 200 |}, user).

Definition verify_email
    (settings : Settings) (now : datetime) (request : Payload) : M Response :=
  match payload_email request, payload_code request with
  | Some email, Some code =>
      if String.eqb email "" || String.eqb code "" then
        ret {| data := [("error", JStr "هر دو فیلد ایمیل و کد تأیید الزامی هستند.");
                        ("code", JStr "missing_fields")];
               status := 400 |}
      else
        do found <- objects_get email;
        match found with
        | None =>
            ret {| data := [("error", JStr "کاربری با این ایمیل یافت نشد.");
                            ("code", JStr "user_not_found")];
                   status := 404 |}
        | Some user =>
            do result <- verify_email_user settings now user code;
            ret (fst result)
        end
  | _, _ =>
      ret {| data := [("error", JStr "هر دو فیلد ایمیل و کد تأیید الزامی هستند.");
                      ("code", JStr "missing_fields")];
             status := 400 |}
  end.

(** Lines 709-710 of [resend_verification], equally 474-475 of
    [register_view]: draw a code and store it.  [length] is [None] in
    both views; it is the argument of [generate_verification_code]. *)
Definition issue
    (settings : Settings) (now : datetime) (user : User) (length : option Z)
    : M (string * User) :=
  do code <- Utils.generate_verification_code settings length;
  do user <- set_verification_code now code user;
  ret (code, user).

(** Lines 702-731 of [resend_verification].  Reading
    [settings.EMAIL_VERIFICATION_TIMEOUT] as an attribute raises when
    the name is not set. *)
Definition resend_verification_user
    (settings : Settings) (now : datetime) (mail : MailOutcome) (user : User)
    : M (Response * User) :=
  if is_email_verified user then
    ret ({| data := [("message", JStr "ایمیل شما قبلاً تأیید شده است.");
                     ("code", JStr "already_verified")];
            status := 200 |}, user)
  else
    do issued <- issue settings now user None;
    let user := snd issued in
    match mail with
    | Some e =>
        ret ({| data := [("error", JStr "خطا در ارسال ایمیل تأیید.");
                         ("details", JStr e);
                         ("code", JStr "email_sending_failed")];
                status := 500 |}, user)
    | None =>
        match EMAIL_VERIFICATION_TIMEOUT settings with
        | None => ret (server_error, user)
        | Some timeout =>
            ret ({| data := [("message", JStr "کد تأیید جدید به ایمیل شما ارسال شد.");
                             ("code", JStr "success");
                             ("verification",
                              JVerification "sent" (email user) (timeout / 3600))];
                    status := 200 |}, user)
        end
    end.

Definition resend_verification
    (settings : Settings) (now : datetime) (mail : MailOutcome) (request : Payload)
    : M Response :=
  match payload_email request with
  | Some email =>
      if String.eqb email "" then
        ret {| data := [("error", JStr "ایمیل الزامی است.");
                        ("code", JStr "missing_email")];
               status := 400 |}
      else
        do found <- objects_get email;
        match found with
        | None =>
            ret {| data := [("error", JStr "کاربری با این ایمیل یافت نشد.");
                            ("code", JStr "user_not_found")];
                   status := 404 |}
        | Some user =>
            do result <- resend_verification_user settings now mail user;
            ret (fst result)
        end
  | None =>
      ret {| data := [("error", JStr "ایمیل الزامی است.");
                      ("code", JStr "missing_email")];
             status := 400 |}
  end.

(** Lines 1281-1298 of [debug_direct_verify]; [now] stands for the
    clock as both [save]s read it, which
    [Readings.debug_direct_verify_user] below keeps apart. *)
Definition debug_direct_verify_user (now : datetime) (user : User)
    : M (Response * User) :=
  if is_email_verified user then
    ret ({| data := [("message", JStr "Email already verified");
                     ("is_verified", JBool true)];
            status := 200 |}, user)
  else
    let user := with_verified true user in
    do user <- clear_verification_code now user;
    do user <- save now user;
    ret ({| data := [("message", JStr "Email successfully verified without code");
                     ("refresh", JRefreshToken (email user));
                     ("access", JAccessToken (email user));
                     ("user", UserSerializer_data user)];
            status := 200 |}, user).

End Views.

(** ** [api/verification_email.py]

    These two views parse the raw body themselves; [None] as the request
    stands for a body that is not JSON.  [JsonResponse] answers with
    status 200 unless told otherwise. *)

Module VerificationEmail.

Definition json_response (success : bool) (message : string) (status : Z)
    : Response :=
  {| data := [("success", JBool success); ("message", JStr message)];
     status := status |}.

(** Lines 275-296 of [verify_code]. *)
Definition verify_code_user
    (settings : Settings) (now : datetime) (user : User) (code : string)
    : M (Response * User) :=
  if is_verified user then
    ret (json_response true "Email already verified" 200, user)
  else
    let is_valid := UserModel.verify_code settings now user code in
    if is_valid then
      let user := with_verified true user in
      let user := with_code None None user in
      do user <- save now user;
      ret (json_response true "Email verified successfully" 200, user)
    else
      ret (json_response false "Invalid or expired verification code" 400, user).

Definition verify_code
    (settings : Settings) (now : datetime) (request : option Payload)
    : M Response :=
  match request with
  | None => ret (json_response false "Invalid JSON payload" 400)
  | Some body =>
      match payload_email body with
      | None => ret (json_response false "Email is required" 400)
      | Some email =>
          if String.eqb email "" then
            ret (json_response false "Email is required" 400)
          else
            match payload_code body with
            | None => ret (json_response false "Verification code is required" 400)
            | Some code =>
                if String.eqb code "" then
                  ret (json_response false "Verification code is required" 400)
                else
                  do found <- objects_get email;
                  match found with
                  | None => ret (json_response false "User not found" 404)
                  | Some user =>
                      do result <- verify_code_user settings now user code;
                      ret (fst result)
                  end
            end
      end
  end.

(** Lines 39-238 of [send_verification_email], the mail itself left to
    the collaborator. *)
Definition send_verification_email_user
    (now : datetime) (mail : MailOutcome) (user : User)
    : M (Response * User) :=
  if is_verified user then
    ret (json_response true "Email already verified" 200, user)
  else
    do issued <- UserModel.generate_verification_code now user;
    let user := snd issued in
    match mail with
    | None =>
        ret (json_response true "Verification email sent successfully" 200, user)
    | Some e =>
        ret (json_response false ("Failed to send email: " ++ e) 500, user)
    end.

Definition send_verification_email
    (now : datetime) (mail : MailOutcome) (request : option Payload)
    : M Response :=
  match request with
  | None => ret (json_response false "Invalid JSON payload" 400)
  | Some body =>
      match payload_email body with
      | None => ret (json_response false "Email is required" 400)
      | Some email =>
          if String.eqb email "" then
            ret (json_response false "Email is required" 400)
          else
            do found <- objects_get email;
            match found with
            | None => ret (json_response false "User not found" 404)
            | Some user =>
                do result <- send_verification_email_user now mail user;
                ret (fst result)
            end
      end
  end.

End VerificationEmail.

(** ** [api/management/commands/verify_user.py] *)

Module VerifyUserCommand.

(** Lines 20-27 of [Command.handle], after the user has been fetched. *)
Definition handle_user (now : datetime) (user : User) : M User :=
  if is_email_verified user then ret user
  else
    let user := with_verified true user in
    let user := with_code None None user in
    save now user.

End VerifyUserCommand.

(** ** The lifecycle of the specification, read off the code

    [issue] is [Views.issue] (or [UserModel.generate_verification_code]),
    [isValid] is [UserModel.is_verification_code_valid], and [consume] is
    what [verify_email] and [verify_code] do with a fetched user. *)

Module Lifecycle.

Inductive Result := Verified | InvalidOrExpired | AlreadyVerified.

Definition as_str (j : option Json) : option string :=
  match j with
  | Some (JStr s) => Some s
  | _ => None
  end.

(** The result kind as a client reads it: the ['code'] entry of a
    [verify_email] response, the ['message'] of a [verify_code] one. *)
Definition result_kind (r : Response) : option Result :=
  match as_str (body_get "code" (data r)) with
  | Some c =>
      if String.eqb c "success" then Some Verified
      else if String.eqb c "invalid_code" then Some InvalidOrExpired
      else if String.eqb c "already_verified" then Some AlreadyVerified
      else None
  | None =>
      match as_str (body_get "message" (data r)) with
      | Some m =>
          if String.eqb m "Email verified successfully" then Some Verified
          else if String.eqb m "Invalid or expired verification code"
          then Some InvalidOrExpired
          else if String.eqb m "Email already verified" then Some AlreadyVerified
          else None
      | None => None
      end
  end.

(** A response reports an error when its status is 4xx or 5xx, when it
    carries an ['error'] entry, or when it says ['success': False]. *)
Definition is_error (r : Response) : bool :=
  (400 <=? status r)
  || match body_get "error" (data r) with Some _ => true | None => false end
  || match body_get "success" (data r) with
     | Some (JBool false) => true
     | _ => false
     end.

(** [code] is set iff [issuedAt] is set. *)
Definition code_iff_created (u : User) : Prop :=
  is_Some (verification_code u) <-> is_Some (verification_code_created u).

(** The same of every row of the table. *)
Definition rows_code_iff_created (w : World) : Prop :=
  map_Forall (fun _ row => code_iff_created row) (users w).

(** The code of [u] was issued more than the timeout ago. *)
Definition expired (settings : Settings) (now : datetime) (u : User) : Prop :=
  exists created,
    verification_code_created u = Some created /\
    seconds (getattr (EMAIL_VERIFICATION_TIMEOUT settings) 3600) < now - created.

(** Every entry point of the repository that acts on one user's
    verification state. *)
Inductive Op :=
| SetVerificationCode (code : string)
| ClearVerificationCode
| GenerateVerificationCode
| IsVerificationCodeValid (code : string)
| Issue (length : option Z)
| VerifyEmail (code : string)
| VerifyCode (code : string)
| ResendVerification (mail : MailOutcome)
| SendVerificationEmail (mail : MailOutcome)
| DebugDirectVerify
| VerifyUser.

(** One operation at instant [now]; the object the caller holds
    afterwards. *)
Definition step (settings : Settings) (now : datetime) (op : Op) (user : User)
    : M User :=
  match op with
  | SetVerificationCode code => set_verification_code now code user
  | ClearVerificationCode => clear_verification_code now user
  | GenerateVerificationCode =>
      do r <- UserModel.generate_verification_code now user; ret (snd r)
  | IsVerificationCodeValid code =>
      let _ := is_verification_code_valid settings now user code in ret user
  | Issue length =>
      do r <- Views.issue settings now user length; ret (snd r)
  | VerifyEmail code =>
      do r <- Views.verify_email_user settings now user code; ret (snd r)
  | VerifyCode code =>
      do r <- VerificationEmail.verify_code_user settings now user code; ret (snd r)
  | ResendVerification mail =>
      do r <- Views.resend_verification_user settings now mail user; ret (snd r)
  | SendVerificationEmail mail =>
      do r <- VerificationEmail.send_verification_email_user now mail user;
      ret (snd r)
  | DebugDirectVerify =>
      do r <- Views.debug_direct_verify_user now user; ret (snd r)
  | VerifyUser => VerifyUserCommand.handle_user now user
  end.

(** A sequence of operations, each at its own instant. *)
Fixpoint steps (settings : Settings) (ops : list (datetime * Op)) (user : User)
    : M User :=
  match ops with
  | [] => ret user
  | (now, op) :: rest =>
      do user <- step settings now op user;
      steps settings rest user
  end.

End Lifecycle.
Import Lifecycle.

(** ** Concrete inputs used in the examples *)

Module Examples.

(** A generator whose every draw is the digit [d]. *)
Definition constant_tape (d : Digit) : Random :=
  {| tape := fun _ => d; cursor := 0 |}.

(** Draws 0, 4, 2, 9, 1, 7 and then sevens for ever. *)
Definition tape_042917 : Random :=
  {| tape := fun i =>
               match i with
               | 0%nat => D0 | 1%nat => D4 | 2%nat => D2
               | 3%nat => D9 | 4%nat => D1 | _ => D7
               end;
     cursor := 0 |}.

Definition alice : User :=
  {| username := "alice";
     email := "alice@example.com";
     updated_at := 0;
     is_email_verified := false;
     verification_code := None;
     verification_code_created := None |}.

Definition verified_bob : User :=
  {| username := "bob";
     email := "bob@example.com";
     updated_at := 500;
     is_email_verified := true;
     verification_code := None;
     verification_code_created := None |}.

Definition world (g : Random) : World :=
  {| users := {[ "alice@example.com" := alice; "bob@example.com" := verified_bob ]};
     random := g |}.

End Examples.

(** ** The rest of [api/views.py]: the two debug views *)

Module DebugViews.

Definition error_response (text : string) (status : Z) : Response :=
  {| data := [("error", JStr text)]; status := status |}.

(** [debug_direct_verify], lines 1263-1298. *)
Definition debug_direct_verify (now : datetime) (request : Payload) : M Response :=
  match payload_email request with
  | None => ret (error_response "Email is required" 400)
  | Some email =>
      if String.eqb email "" then ret (error_response "Email is required" 400)
      else
        do found <- objects_get email;
        match found with
        | None => ret (error_response "User not found" 404)
        | Some user =>
            do result <- Views.debug_direct_verify_user now user;
            ret (fst result)
        end
  end.

(** The answers of [debug_get_verification_code], one constructor for each
    [return] of the view: 403, 400, 404, the 200 of a verified user, and
    the 200 that carries the code ([expires_at] is sent as
    [expires_at.isoformat()]).  [Escaped] is the exception that leaves
    the view when [settings.EMAIL_VERIFICATION_TIMEOUT] is not set. *)
Inductive CodeAnswer :=
| Forbidden
| EmailRequired
| UserNotFound
| IsVerified
| CodeFor (email code : string) (expires_at : datetime)
| Escaped.

Definition answer_status (a : CodeAnswer) : Z :=
  match a with
  | Forbidden => 403
  | EmailRequired => 400
  | UserNotFound => 404
  | IsVerified => 200
  | CodeFor _ _ _ => 200
  | Escaped => 500
  end.

(** [debug_get_verification_code], lines 1194-1238; [debug] is
    [settings.DEBUG]. *)
Definition debug_get_verification_code
    (debug : bool) (settings : Settings) (now : datetime) (request : Payload)
    : M CodeAnswer :=
  if negb debug then ret Forbidden
  else
    match payload_email request with
    | None => ret EmailRequired
    | Some email =>
        if String.eqb email "" then ret EmailRequired
        else
          do found <- objects_get email;
          match found with
          | None => ret UserNotFound
          | Some user =>
              if is_email_verified user then ret IsVerified
              else
                do held <-
                  (if not_str (verification_code user)
                      || not_datetime (verification_code_created user)
                   then Views.issue settings now user None
                   else ret (getattr (verification_code user) "", user));
                let code := fst held in
                let user := snd held in
                match verification_code_created user,
                      EMAIL_VERIFICATION_TIMEOUT settings with
                | Some created, Some timeout =>
                    ret (CodeFor email code (created + seconds timeout))
                | _, _ => ret Escaped
                end
          end
    end.

End DebugViews.

(** ** The management commands, complete *)

Module Commands.

(** [verify_user]: [Command.handle]; [None] is the [CommandError] raised
    for an unknown e-mail. *)
Definition verify_user (now : datetime) (email : string) : M (option User) :=
  do found <- objects_get email;
  match found with
  | None => ret None
  | Some user =>
      do user <- VerifyUserCommand.handle_user now user;
      ret (Some user)
  end.

(** What [get_verification_code] writes, line by line: the warning for a
    verified user, then one of four reports. *)
Inductive Report :=
| NoCode
| Live (code : string) (created : datetime) (seconds_left minutes_left : Z)
| Expired (code : string) (created : datetime) (seconds_ago : Z)
| NoCreationTime (code : string).

Record Output := mkOutput {
  already_verified_warning : bool;
  report : Report
}.

(** [int(x)] for a duration [x] held in microseconds: truncation towards
    zero of the number of whole [unit]s. *)
Definition int_of (x : timedelta) (unit : Z) : Z := Z.quot x unit.

(** Lines 21-51 of [get_verification_code]: [time_passed], [time_left]
    and [timeout] are kept in microseconds.  The code holds them as
    floats of seconds; the difference of two floats has the sign of the
    exact difference, so that the test [time_left > 0] is the comparison
    of [time_passed] with the timeout. *)
Definition get_verification_code_user
    (settings : Settings) (now : datetime) (user : User) : Output :=
  {| already_verified_warning := is_email_verified user;
     report :=
       if not_str (verification_code user) then NoCode
       else
         let code := getattr (verification_code user) "" in
         let timeout := seconds (getattr (EMAIL_VERIFICATION_TIMEOUT settings) 3600) in
         match verification_code_created user with
         | Some created =>
             let time_passed := now - created in
             let time_left := Z.max 0 (timeout - time_passed) in
             if 0 <? time_left
             then Live code created (int_of time_left 1000000)
                       (int_of time_left 60000000)
             else Expired code created (int_of (time_passed - timeout) 1000000)
         | None => NoCreationTime code
         end |}.

Definition get_verification_code
    (settings : Settings) (now : datetime) (email : string) : M (option Output) :=
  do found <- objects_get email;
  match found with
  | None => ret None
  | Some user => ret (Some (get_verification_code_user settings now user))
  end.

End Commands.

(** ** The verification requests

    One constructor for each verification view and command above;
    [handle] runs it and drops the answer.  (The views that edit a
    profile, [register_view], which only adds rows, and the
    [test_email_verification] command, which issues a code without
    looking at the flag, are not among them.) *)

Module Site.

Inductive Request :=
| VerifyEmail (request : Payload)
| VerifyCode (request : option Payload)
| ResendVerification (mail : MailOutcome) (request : Payload)
| SendVerificationEmail (mail : MailOutcome) (request : option Payload)
| DebugDirectVerify (request : Payload)
| DebugGetVerificationCode (debug : bool) (request : Payload)
| VerifyUserCommand (email : string)
| GetVerificationCodeCommand (email : string).

Definition handle (settings : Settings) (now : datetime) (r : Request) : M unit :=
  match r with
  | VerifyEmail request =>
      call Views.verify_email settings now request; ret tt
  | VerifyCode request =>
      call VerificationEmail.verify_code settings now request; ret tt
  | ResendVerification mail request =>
      call Views.resend_verification settings now mail request; ret tt
  | SendVerificationEmail mail request =>
      call VerificationEmail.send_verification_email now mail request; ret tt
  | DebugDirectVerify request =>
      call DebugViews.debug_direct_verify now request; ret tt
  | DebugGetVerificationCode debug request =>
      call DebugViews.debug_get_verification_code debug settings now request; ret tt
  | VerifyUserCommand email =>
      call Commands.verify_user now email; ret tt
  | GetVerificationCodeCommand email =>
      call Commands.get_verification_code settings now email; ret tt
  end.

Fixpoint serve (settings : Settings) (requests : list (datetime * Request)) : M unit :=
  match requests with
  | [] => ret tt
  | (now, r) :: rest =>
      call handle settings now r;
      serve settings rest
  end.

(** The e-mail a request names, if it names one. *)
Definition addressed (r : Request) : option string :=
  match r with
  | VerifyEmail request
  | ResendVerification _ request
  | DebugDirectVerify request
  | DebugGetVerificationCode _ request => payload_email request
  | VerifyCode request
  | SendVerificationEmail _ request =>
      match request with
      | Some body => payload_email body
      | None => None
      end
  | VerifyUserCommand email
  | GetVerificationCodeCommand email => Some email
  end.

(** Every row is stored under its own e-mail. *)
Definition keyed_by_email (w : World) : Prop :=
  forall (key : string) (row : User), users w !! key = Some row -> email row = key.

(** The operations that begin by returning when the user is verified. *)
Definition guarded (op : Op) : bool :=
  match op with
  | Lifecycle.VerifyEmail _ | Lifecycle.VerifyCode _
  | Lifecycle.ResendVerification _ | Lifecycle.SendVerificationEmail _
  | Lifecycle.DebugDirectVerify | Lifecycle.VerifyUser => true
  | _ => false
  end.

(** The request [r] finds a user under the e-mail it names and leaves the
    world that one operation on that user leaves. *)
Definition acts_as
    (settings : Settings) (now : datetime) (r : Request) (w : World) : Prop :=
  exists (e : string) (u : User) (op : Op),
    addressed r = Some e /\
    users w !! e = Some u /\
    (guarded op = true \/ is_email_verified u = false) /\
    snd (handle settings now r w) = snd (step settings now op u w).

End Site.

(** ** [api/serializers.py]: [UserSerializer.create] *)

Module Serializers.

(** The validated data [create] reads: ['username'] is optional,
    ['email'] required.  The password and the names go to the columns
    that are not modelled; [is_email_verified] is read-only and never
    part of the data. *)
Record ValidatedData := mkValidatedData {
  data_username : option string;
  data_email : string
}.

(** [email.split('@')[0]] *)
Fixpoint before_at (s : string) : string :=
  match s with
  | EmptyString => EmptyString
  | String c rest =>
      if Ascii.eqb c "@"%char then EmptyString else String c (before_at rest)
  end.

(** The loop [while User.objects.filter(username=username).exists()],
    entered with the candidate [username] and the next [counter];
    [None] when [fuel] iterations were not enough. *)
Fixpoint free_username
    (fuel : nat) (base_username username : string) (counter : nat)
    : M (option string) :=
  do taken <- username_exists username;
  if taken then
    match fuel with
    | O => ret None
    | S fuel' =>
        free_username fuel' base_username
          (base_username ++ pretty counter) (S counter)
    end
  else ret (Some username).

(** Some stored user has the username [name]. *)
Definition username_taken (w : World) (name : string) : Prop :=
  exists (key : string) (row : User),
    users w !! key = Some row /\ username row = name.

Inductive Created :=
| NewUser (user : User)
| Raised          (* [create_user] raised *)
| OutOfFuel.      (* the loop did not end within [fuel] iterations *)

Definition create
    (normalize_email : string -> string) (fuel : nat)
    (now : datetime) (validated_data : ValidatedData) : M Created :=
  do chosen <-
    (if not_str (data_username validated_data) then
       let email := data_email validated_data in
       let username := before_at email in
       free_username fuel username username 1
     else ret (data_username validated_data));
  match chosen with
  | None => ret OutOfFuel
  | Some username =>
      do user <- create_user normalize_email now
                   (data_email validated_data) username false;
      match user with
      | Some user => ret (NewUser user)
      | None => ret Raised
      end
  end.

End Serializers.

(** ** [register_view], lines 465-505 of [api/views.py]

    [validated] is what [serializer.is_valid()] found: the validated data,
    or [None] for a request it rejects.  [delivery_check] is
    [settings.EMAIL_DELIVERY_CHECK]. *)

Module Registration.

Inductive Answer :=
| Registered (user : User) (email_status : string) (expires_in_hours : Z)
             (dev_note : option string)       (* 201 *)
| Rejected                                    (* 400, [serializer.errors] *)
| Escaped.                                    (* an exception leaves the view *)

Definition register_view
    (normalize_email : string -> string) (fuel : nat) (delivery_check : bool)
    (settings : Settings) (now : datetime) (mail : MailOutcome)
    (validated : option Serializers.ValidatedData) : M Answer :=
  match validated with
  | None => ret Rejected
  | Some validated_data =>
      do created <- Serializers.create normalize_email fuel now validated_data;
      match created with
      | Serializers.NewUser user =>
          do issued <- Views.issue settings now user None;
          let user := snd issued in
          let email_status :=
            if delivery_check then
              match mail with
              | None => "sent"
              | Some e => "failed: " ++ e
              end
            else "skipped (dev mode)" in
          match EMAIL_VERIFICATION_TIMEOUT settings with
          | None => ret Escaped
          | Some timeout =>
              ret (Registered user email_status (timeout / 3600)
                     (if delivery_check then None
                      else Some "Use /api/auth/debug/direct-verify/ in development"))
          end
      | _ => ret Escaped
      end
  end.

End Registration.

(** ** [api/backends.py]: [EmailOrUsernameModelBackend.authenticate]

    [check_password] is the framework's comparison of a password with the
    stored hash. *)

Module Backends.

(** ['@' in str(username)] *)
Fixpoint contains_at (s : string) : bool :=
  match s with
  | EmptyString => false
  | String c rest => Ascii.eqb c "@"%char || contains_at rest
  end.

Inductive Authentication :=
| Authenticated (user : User)
| Refused                     (* the method returns [None] *)
| MultipleObjectsReturned.    (* raised by [get], not caught *)

Definition checked
    (check_password : User -> string -> bool) (user : User) (password : string)
    : Authentication :=
  if check_password user password then Authenticated user else Refused.

(** [authenticate(request, username, password)]; the argument [username]
    is called [identifier] here, [username] being the column. *)
Definition authenticate
    (check_password : User -> string -> bool) (identifier password : string)
    : M Authentication :=
  fun w =>
    (if contains_at identifier then
       match users w !! identifier with
       | Some user => checked check_password user password
       | None => Refused
       end
     else
       match filter (fun row : User => username row = identifier)
               (map_to_list (users w)).*2 with
       | [] => Refused
       | [user] => checked check_password user password
       | _ => MultipleObjectsReturned
       end, w).

End Backends.

(** ** [api/models.py]: [Article] and [Category]

    [slugify] is the framework's and is taken as a parameter.  Of an
    article the columns kept are those [save] reads or writes. *)

Module Content.

Record Category := mkCategory {
  category_name : string;
  category_slug : string
}.

(** [Category.save] *)
Definition save_category (slugify : string -> string) (self : Category) : Category :=
  {| category_name := category_name self;
     category_slug :=
       if String.eqb (category_slug self) "" then slugify (category_name self)
       else category_slug self |}.

Record Article := mkArticle {
  title : string;
  slug : string;
  status : string;
  published_at : option datetime;
  updated_at : datetime
}.

(** [Article.save] *)
Definition save (slugify : string -> string) (now : datetime) (self : Article)
    : Article :=
  {| title := title self;
     slug := if String.eqb (slug self) "" then slugify (title self) else slug self;
     status := status self;
     published_at :=
       if String.eqb (status self) "published" && not_datetime (published_at self)
       then Some now else published_at self;
     updated_at := now |}.

(** An update through [ArticleSerializer]: [slug] and [published_at] are
    among its [read_only_fields], so a request can assign [title] and
    [status] (each optional, as in a partial update) and nothing else of
    what is modelled; the object is then saved. *)
Record Update := mkUpdate {
  new_title : option string;
  new_status : option string
}.

Definition update
    (slugify : string -> string) (now : datetime) (validated_data : Update)
    (instance : Article) : Article :=
  save slugify now
    {| title := getattr (new_title validated_data) (title instance);
       slug := slug instance;
       status := getattr (new_status validated_data) (status instance);
       published_at := published_at instance;
       updated_at := updated_at instance |}.

Fixpoint updates
    (slugify : string -> string) (edits : list (datetime * Update))
    (instance : Article) : Article :=
  match edits with
  | [] => instance
  | (now, validated_data) :: rest =>
      updates slugify rest (update slugify now validated_data instance)
  end.

(** *** [ArticleViewSet.like]

    A row of [ArticleLike] is a pair of an article and a user;
    [get_or_create] returns the stored row when there is one, raises when
    there are several, and adds the row otherwise. *)

Record ArticleLike := mkArticleLike {
  like_article : string;
  like_user : string
}.

Definition same_like (article user : string) (row : ArticleLike) : bool :=
  String.eqb (like_article row) article && String.eqb (like_user row) user.

(** [ArticleLike.objects.get_or_create(article=article, user=user)];
    [None] is [MultipleObjectsReturned]. *)
Definition get_or_create
    (article user : string) (likes : list ArticleLike)
    : option (ArticleLike * bool * list ArticleLike) :=
  match List.filter (same_like article user) likes with
  | [] =>
      let row := {| like_article := article; like_user := user |} in
      Some (row, true, (likes ++ [row])%list)
  | [row] => Some (row, false, likes)
  | _ => None
  end.

(** [like]: the ['status'] of the response and the table afterwards. *)
Definition like (article user : string) (likes : list ArticleLike)
    : option (string * list ArticleLike) :=
  match get_or_create article user likes with
  | Some (_, created, likes') =>
      Some (if created then "liked" else "already liked", likes')
  | None => None
  end.

(** [ArticleSerializer.get_likes_count]: [obj.likes.count()] *)
Definition get_likes_count (article : string) (likes : list ArticleLike) : nat :=
  length (List.filter (fun row => String.eqb (like_article row) article) likes).

End Content.

(** ** The clock, read where the code reads it

    Within one request the code reads [timezone.now()] more than once:
    in [is_verification_code_valid], and in every [save], which stamps
    [updated_at] anew ([auto_now=True]).  The fragments of [Views] and
    [VerificationEmail] take one instant [now] for all the readings of a
    request.  The fragments that verify a user are given here with one
    argument for each reading, in the order in which the code makes
    them: [checked] by the validity check, [saved] by the first [save],
    [resaved] by the second. *)

Module Readings.

(** Lines 592-618 of [verify_email]. *)
Definition verify_email_user
    (settings : Settings) (checked saved resaved : datetime)
    (user : User) (code : string) : M (Response * User) :=
  if is_email_verified user then
    ret ({| data := [("message", JStr "ایمیل شما قبلاً تأیید شده است.");
                     ("code", JStr "already_verified");
                     ("user", UserSerializer_data user)];
            status := 200 |}, user)
  else if negb (is_verification_code_valid settings checked user code) then
    ret ({| data := [("error", JStr "کد تأیید نامعتبر یا منقضی شده است.");
                     ("code", JStr "invalid_code")];
            status := 400 |}, user)
  else
    let user := with_verified true user in
    do user <- clear_verification_code saved user;
    do user <- save resaved user;
    ret ({| data := [("message", JStr "ایمیل شما با موفقیت تأیید شد.");
                     ("code", JStr "success");
                     ("refresh", JRefreshToken (email user));
                     ("access", JAccessToken (email user));
                     ("user", UserSerializer_data user)];
            status := 200 |}, user).

(** Lines 275-296 of [verify_code]. *)
Definition verify_code_user
    (settings : Settings) (checked saved : datetime) (user : User) (code : string)
    : M (Response * User) :=
  if is_verified user then
    ret (VerificationEmail.json_response true "Email already verified" 200, user)
  else
    let is_valid := UserModel.verify_code settings checked user code in
    if is_valid then
      let user := with_verified true user in
      let user := with_code None None user in
      do user <- save saved user;
      ret (VerificationEmail.json_response true "Email verified successfully" 200,
           user)
    else
      ret (VerificationEmail.json_response false
             "Invalid or expired verification code" 400, user).

(** Lines 1281-1298 of [debug_direct_verify]. *)
Definition debug_direct_verify_user (saved resaved : datetime) (user : User)
    : M (Response * User) :=
  if is_email_verified user then
    ret ({| data := [("message", JStr "Email already verified");
                     ("is_verified", JBool true)];
            status := 200 |}, user)
  else
    let user := with_verified true user in
    do user <- clear_verification_code saved user;
    do user <- save resaved user;
    ret ({| data := [("message", JStr "Email successfully verified without code");
                     ("refresh", JRefreshToken (email user));
                     ("access", JAccessToken (email user));
                     ("user", UserSerializer_data user)];
            status := 200 |}, user).

End Readings.

(** ** The float behind [total_seconds()]

    [timedelta.total_seconds()] is the microsecond count divided by
    [10**6] with Python's [/] on integers: the quotient correctly rounded
    to a binary64, to nearest with ties to even.  A value is kept as
    [mant * 2 ^ expo].  The microsecond count of a [timedelta] lies below
    [2 ^ 67] in absolute value, so that the quotient neither overflows
    nor is subnormal, and the exponent needs no bound here. *)

Module Binary64.

Record float := mkFloat {
  mant : Z;
  expo : Z
}.

(** [n] and [d] brought to the scale [2 ^ e]: the pair, as a fraction, is
    [n / (d * 2 ^ e)]. *)
Definition scaled (n d e : Z) : Z * Z :=
  (n * 2 ^ Z.max 0 (- e), d * 2 ^ Z.max 0 e).

(** [n / d] for positive [n] and [d]: the scale is chosen so that the
    integer part of the scaled quotient has 53 bits, and the remainder
    decides the rounding. *)
Definition divide_pos (n d : Z) : float :=
  let e0 := Z.log2 n - Z.log2 d - 52 in
  let e := if fst (scaled n d e0) / snd (scaled n d e0) <? 2 ^ 52
           then e0 - 1 else e0 in
  let num := fst (scaled n d e) in
  let den := snd (scaled n d e) in
  let q := num / den in
  let r := num mod den in
  {| mant := if (den <? 2 * r) || ((den =? 2 * r) && Z.odd q) then q + 1 else q;
     expo := e |}.

(** [n / d] for an integer [n] and a positive integer [d]. *)
Definition true_divide (n d : Z) : float :=
  match n with
  | 0 => {| mant := 0; expo := 0 |}
  | Z.pos _ => divide_pos n d
  | Z.neg _ =>
      let x := divide_pos (- n) d in {| mant := - mant x; expo := expo x |}
  end.

(** The comparison of a float with an [int], which Python makes on the
    exact values. *)
Definition compare_int (x : float) (k : Z) : comparison :=
  mant x * 2 ^ Z.max 0 (expo x) ?= k * 2 ^ Z.max 0 (- expo x).

(** [x > k] *)
Definition gt_int (x : float) (k : Z) : bool :=
  match compare_int x k with
  | Gt => true
  | _ => false
  end.

(** [delta.total_seconds()] *)
Definition total_seconds (delta : timedelta) : float :=
  true_divide delta 1000000.

End Binary64.

(** [User.is_verification_code_valid] with line 73 as the code has it:
    the float [(now - created).total_seconds()] compared with the
    timeout. *)

Module OnFloats.

Definition is_verification_code_valid
    (settings : Settings) (now : datetime) (self : User) (code : string) : bool :=
  if not_str (verification_code self) || not_datetime (verification_code_created self)
  then false
  else
    match verification_code self, verification_code_created self with
    | Some stored, Some created =>
        let timeout := getattr (EMAIL_VERIFICATION_TIMEOUT settings) 3600 in
        let is_expired :=
          Binary64.gt_int (Binary64.total_seconds (now - created)) timeout in
        negb is_expired && String.eqb stored code
    | _, _ => false
    end.

End OnFloats.

(** * Properties *)

(** ** The generator *)

Section Generator.

Lemma draws_length (k : nat) : forall g, length (fst (draws g k)) = k.
Proof.
  induction k as [|k IH]; intros g; cbn [draws]; [reflexivity|].
  destruct (draw g) as [d g1]. specialize (IH g1).
  destruct (draws g1 k) as [ds g2]; simpl in *.
  now f_equal.
Qed.

Lemma join_length (chars : list ascii) :
  String.length (join chars) = length chars.
Proof.
  induction chars as [|c chars IH]; simpl; [reflexivity | now rewrite IH].
Qed.

Lemma digit_char_is_decimal (d : Digit) : is_decimal_digit (digit_char d) = true.
Proof. destruct d; reflexivity. Qed.

Lemma join_all_digits (ds : list Digit) :
  all_digits (join (map digit_char ds)) = true.
Proof.
  induction ds as [|d ds IH]; simpl; [reflexivity|].
  now rewrite digit_char_is_decimal, IH.
Qed.

(** What [generate_verification_code] of [api/utils.py] returns, and
    that it touches nothing but the generator. *)
Lemma utils_generate_spec (settings : Settings) (length : option Z) (w : World) :
  let n := match length with
           | None => getattr (VERIFICATION_CODE_LENGTH settings) 6
           | Some n => n
           end in
  let ds := fst (draws (random w) (Z.to_nat n)) in
  Utils.generate_verification_code settings length w
  = (join (map digit_char ds),
     {| users := users w; random := snd (draws (random w) (Z.to_nat n)) |}).
Proof.
  unfold Utils.generate_verification_code, bind, with_random, choices_digits, ret.
  simpl. destruct (draws (random w) _) as [ds g']; reflexivity.
Qed.

Lemma utils_generate_length (settings : Settings) (n : Z) (w : World) :
  String.length (fst (Utils.generate_verification_code settings (Some n) w))
  = Z.to_nat n.
Proof.
  rewrite utils_generate_spec; simpl.
  now rewrite join_length, length_map, draws_length.
Qed.

Lemma utils_generate_digits (settings : Settings) (length : option Z) (w : World) :
  all_digits (fst (Utils.generate_verification_code settings length w)) = true.
Proof. rewrite utils_generate_spec; simpl. apply join_all_digits. Qed.

(** The model method always draws six digits. *)
Lemma model_generate_six_digits (now : datetime) (u : User) (w : World) :
  let code := fst (fst (UserModel.generate_verification_code now u w)) in
  String.length code = 6%nat /\ all_digits code = true.
Proof.
  unfold UserModel.generate_verification_code, bind, with_random, save,
    write_row, ret.
  pose proof (draws_length 6 (random w)) as L.
  destruct (draws (random w) 6) as [ds g'] eqn:E; simpl in *.
  split; [now rewrite join_length, length_map | apply join_all_digits].
Qed.

End Generator.

(** ** What the methods do to a user *)

Section Methods.

Variable settings : Settings.

Lemma save_fields (now : datetime) (u : User) (w : World) :
  let u' := fst (save now u w) in
  email u' = email u /\
  updated_at u' = now /\
  is_email_verified u' = is_email_verified u /\
  verification_code u' = verification_code u /\
  verification_code_created u' = verification_code_created u.
Proof. unfold save, bind, write_row, ret; simpl. repeat split. Qed.

Lemma set_verification_code_fields (now : datetime) (c : string) (u : User) (w : World) :
  let u' := fst (set_verification_code now c u w) in
  verification_code u' = Some c /\
  verification_code_created u' = Some now /\
  is_email_verified u' = is_email_verified u.
Proof. unfold set_verification_code, save, bind, write_row, ret; simpl. repeat split. Qed.

Lemma issue_fields (now : datetime) (u : User) (length : option Z) (w : World) :
  let r := fst (Views.issue settings now u length w) in
  verification_code (snd r) = Some (fst r) /\
  verification_code_created (snd r) = Some now /\
  is_email_verified (snd r) = is_email_verified u /\
  fst r = fst (Utils.generate_verification_code settings length w).
Proof.
  unfold Views.issue, bind. rewrite utils_generate_spec.
  unfold set_verification_code, save, bind, write_row, ret; simpl.
  repeat split.
Qed.

(** [is_verification_code_valid] holds exactly when a non-empty code is
    stored with its time stamp, no more than the timeout has elapsed
    since, and the candidate is that code. *)
Lemma is_valid_iff (now : datetime) (u : User) (c : string) :
  is_verification_code_valid settings now u c = true <->
  exists created,
    verification_code u = Some c /\ c <> "" /\
    verification_code_created u = Some created /\
    now - created <= seconds (getattr (EMAIL_VERIFICATION_TIMEOUT settings) 3600).
Proof.
  unfold is_verification_code_valid, not_str, not_datetime, total_seconds_gt.
  destruct (verification_code u) as [stored|];
    destruct (verification_code_created u) as [created|]; simpl.
  - destruct (String.eqb_spec stored "") as [E|E]; simpl.
    + split; [discriminate|]. intros (x & H1 & H2 & _). congruence.
    + rewrite andb_true_iff, negb_true_iff, Z.ltb_ge, String.eqb_eq. split.
      * intros [H1 H2]. exists created. subst. auto.
      * intros (x & H1 & _ & H3 & H4). split; congruence.
  - rewrite orb_true_r. split; [discriminate|].
    intros (x & _ & _ & H & _). discriminate.
  - split; [discriminate|]. intros (x & H & _). discriminate.
  - split; [discriminate|]. intros (x & H & _). discriminate.
Qed.

End Methods.

(** ** Issuing a code *)



(** The scenario of the specification: the generator is seeded to return
    042917; the code is accepted ten seconds after issue and refused 3601
    seconds after it. *)
Example scenario_042917 :
  let r := fst (Views.issue no_settings 1000 Examples.alice None
                  (Examples.world Examples.tape_042917)) in
  fst r = "042917" /\
  is_verification_code_valid no_settings (1000 + seconds 10) (snd r) "042917" = true /\
  is_verification_code_valid no_settings (1000 + seconds 3601) (snd r) "042917" = false.
Proof. vm_compute. auto. Qed.

(** ** Validity and the clock *)

(** A user who holds the non-empty code [c] stamped [t0] passes the check
    with [c] exactly as long as no more than the timeout has elapsed. *)
Lemma held_code_valid_iff
    (settings : Settings) (now t0 : datetime) (u : User) (c : string) :
  verification_code u = Some c ->
  verification_code_created u = Some t0 ->
  c <> "" ->
  is_verification_code_valid settings now u c = true <->
  now - t0 <= seconds (getattr (EMAIL_VERIFICATION_TIMEOUT settings) 3600).
Proof.
  intros Hc Ht Hne. rewrite is_valid_iff. split.
  - intros (created & _ & _ & E & H). congruence.
  - intros H. exists t0. auto.
Qed.

(** C1, as stated, fails: with [VERIFICATION_CODE_LENGTH = 0] the code
    freshly issued at instant 1000 is the empty string, and at exactly
    [t0 + timeoutSeconds] the check does not accept it (nor at any other
    instant, [t0] itself included). *)
Lemma fresh_code_invalid_at_boundary_counterexample :
  let settings := {| EMAIL_VERIFICATION_TIMEOUT := Some 3600;
                     VERIFICATION_CODE_LENGTH := Some 0 |} in
  let r := fst (Views.issue settings 1000 Examples.alice None
                  (Examples.world Examples.tape_042917)) in
  verification_code (snd r) = Some (fst r) /\
  verification_code_created (snd r) = Some 1000 /\
  is_verification_code_valid settings (1000 + seconds 3600) (snd r) (fst r) = false /\
  is_verification_code_valid settings 1000 (snd r) (fst r) = false.
Proof. vm_compute. auto. Qed.

(** C1, amended.  A code [c] freshly issued at [t0] that is not the empty
    string is still valid at exactly [t0 + timeout] and no longer valid
    one second later: the comparison that decides expiry is strict. *)
Theorem valid_at_boundary_expired_after
    (settings : Settings) (t0 : datetime) (u : User) (length : option Z) (w : World) :
  let r := fst (Views.issue settings t0 u length w) in
  let c := fst r in
  let u' := snd r in
  let timeoutSeconds := getattr (EMAIL_VERIFICATION_TIMEOUT settings) 3600 in
  c <> "" ->
  is_verification_code_valid settings (t0 + seconds timeoutSeconds) u' c = true /\
  is_verification_code_valid settings (t0 + seconds (timeoutSeconds + 1)) u' c = false.
Proof.
  intros r c u' timeoutSeconds Hne.
  destruct (issue_fields settings t0 u length w) as (Hc & Ht & _ & _).
  fold r in Hc, Ht. fold c in Hc. fold u' in Hc, Ht.
  split.
  - apply (held_code_valid_iff settings _ t0 u' c Hc Ht Hne).
    fold timeoutSeconds. lia.
  - apply not_true_is_false.
    rewrite (held_code_valid_iff settings _ t0 u' c Hc Ht Hne).
    fold timeoutSeconds. unfold seconds. lia.
Qed.

Lemma valid_at_boundary_expired_after_witness :
  let r := fst (Views.issue no_settings 1000 Examples.alice None
                  (Examples.world Examples.tape_042917)) in
  fst r <> "" /\
  is_verification_code_valid no_settings (1000 + seconds 3600) (snd r) (fst r) = true /\
  is_verification_code_valid no_settings (1000 + seconds 3601) (snd r) (fst r) = false.
Proof.
  assert (H : fst (fst (Views.issue no_settings 1000 Examples.alice None
                          (Examples.world Examples.tape_042917))) <> "")
    by (vm_compute; discriminate).
  split; [exact H|].
  exact (valid_at_boundary_expired_after no_settings 1000 Examples.alice None
           (Examples.world Examples.tape_042917) H).
Defined.

(** ** The empty code *)

(** An empty stored code counts as no code: nothing validates against it,
    at any instant. *)
Lemma empty_code_never_valid
    (settings : Settings) (now : datetime) (u : User) (candidate : string) :
  verification_code u = Some "" ->
  is_verification_code_valid settings now u candidate = false.
Proof.
  intros H. unfold is_verification_code_valid. rewrite H. reflexivity.
Qed.

(** C7, as stated, fails: issue a code of length 0 at instant 1000; the
    empty string is stored with its time stamp, no time has elapsed, and
    the check with the empty candidate answers [false]. *)
Lemma empty_code_accepted_counterexample :
  let r := fst (Views.issue no_settings 1000 Examples.alice (Some 0)
                  (Examples.world Examples.tape_042917)) in
  fst r = "" /\
  verification_code (snd r) = Some "" /\
  verification_code_created (snd r) = Some 1000 /\
  is_verification_code_valid no_settings 1000 (snd r) "" = false.
Proof. vm_compute. auto. Qed.

(** C7, amended.  After a code of length 0 has been issued the empty
    string is stored together with its time stamp, and the validity check
    answers [false] for every candidate, the empty one included, at every
    instant: [is_verification_code_valid] takes an empty stored code for
    an absent one. *)
Theorem empty_code_is_rejected
    (settings : Settings) (t0 : datetime) (u : User) (w : World) :
  let r := fst (Views.issue settings t0 u (Some 0) w) in
  fst r = "" /\
  verification_code (snd r) = Some "" /\
  verification_code_created (snd r) = Some t0 /\
  forall (now : datetime) (candidate : string),
    is_verification_code_valid settings now (snd r) candidate = false.
Proof.
  intros r.
  destruct (issue_fields settings t0 u (Some 0) w) as (Hc & Ht & _ & Hg).
  fold r in Hc, Ht, Hg.
  assert (He : fst r = "").
  { pose proof (utils_generate_length settings 0 w) as HL.
    rewrite <- Hg in HL. destruct (fst r); [reflexivity | discriminate HL]. }
  rewrite He in Hc.
  split; [exact He|]. split; [exact Hc|]. split; [exact Ht|].
  intros now candidate. now apply empty_code_never_valid.
Qed.

(** ** Issuing twice *)

(** C6, as stated, fails: a generator that keeps drawing 0 issues 000000
    twice, and after the second issue the first code still validates. *)
Lemma reissue_same_code_counterexample :
  let first := Views.issue no_settings 1000 Examples.alice None
                 (Examples.world (Examples.constant_tape D0)) in
  let firstCode := fst (fst first) in
  let second := Views.issue no_settings 2000 (snd (fst first)) None (snd first) in
  firstCode = "000000" /\
  fst (fst second) = "000000" /\
  is_verification_code_valid no_settings 2000 (snd (fst second)) firstCode = true.
Proof. vm_compute. auto. Qed.

(** C6, amended.  After two consecutive issues the first code no longer
    validates, at any instant, whenever the second issue drew a code
    different from the first. *)
Theorem reissue_invalidates_first_code
    (settings : Settings) (t0 t1 : datetime) (u : User)
    (length0 length1 : option Z) (w : World) :
  let first := Views.issue settings t0 u length0 w in
  let firstCode := fst (fst first) in
  let second := Views.issue settings t1 (snd (fst first)) length1 (snd first) in
  fst (fst second) <> firstCode ->
  forall now : datetime,
    is_verification_code_valid settings now (snd (fst second)) firstCode = false.
Proof.
  intros first firstCode second Hne now.
  destruct (issue_fields settings t1 (snd (fst first)) length1 (snd first))
    as (Hc & _ & _ & _).
  fold second in Hc.
  apply not_true_is_false. rewrite is_valid_iff.
  intros (created & H & _). congruence.
Qed.

Lemma reissue_invalidates_first_code_witness :
  let first := Views.issue no_settings 1000 Examples.alice None
                 (Examples.world Examples.tape_042917) in
  let second := Views.issue no_settings 2000 (snd (fst first)) None (snd first) in
  fst (fst second) <> fst (fst first) /\
  is_verification_code_valid no_settings 2000 (snd (fst second)) (fst (fst first)) = false.
Proof.
  assert (H : fst (fst (Views.issue no_settings 2000
                          (snd (fst (Views.issue no_settings 1000 Examples.alice None
                                       (Examples.world Examples.tape_042917))))
                          None
                          (snd (Views.issue no_settings 1000 Examples.alice None
                                  (Examples.world Examples.tape_042917)))))
              <> fst (fst (Views.issue no_settings 1000 Examples.alice None
                             (Examples.world Examples.tape_042917))))
    by (vm_compute; discriminate).
  split; [exact H|].
  exact (reissue_invalidates_first_code no_settings 1000 2000 Examples.alice None None
           (Examples.world Examples.tape_042917) H 2000).
Defined.

(** ** Consuming a code: the three branches of [verify_email] *)

Section Consume.

Variable settings : Settings.

Lemma verify_email_user_verified (now : datetime) (u : User) (c : string) (w : World) :
  is_email_verified u = true ->
  Views.verify_email_user settings now u c w
  = ({| data := [("message", JStr "ایمیل شما قبلاً تأیید شده است.");
                 ("code", JStr "already_verified");
                 ("user", UserSerializer_data u)];
        status := 200 |}, u, w).
Proof. intros H. unfold Views.verify_email_user. rewrite H. reflexivity. Qed.

Lemma verify_email_user_invalid (now : datetime) (u : User) (c : string) (w : World) :
  is_email_verified u = false ->
  is_verification_code_valid settings now u c = false ->
  Views.verify_email_user settings now u c w
  = ({| data := [("error", JStr "کد تأیید نامعتبر یا منقضی شده است.");
                 ("code", JStr "invalid_code")];
        status := 400 |}, u, w).
Proof. intros H V. unfold Views.verify_email_user. rewrite H, V. reflexivity. Qed.

Lemma verify_email_user_valid (now : datetime) (u : User) (c : string) (w : World) :
  is_email_verified u = false ->
  is_verification_code_valid settings now u c = true ->
  let r := Views.verify_email_user settings now u c w in
  result_kind (fst (fst r)) = Some Verified /\
  status (fst (fst r)) = 200 /\
  is_email_verified (snd (fst r)) = true /\
  verification_code (snd (fst r)) = None /\
  verification_code_created (snd (fst r)) = None /\
  email (snd (fst r)) = email u /\
  users (snd r) !! email u = Some (snd (fst r)).
Proof.
  intros H V. unfold Views.verify_email_user. rewrite H, V.
  unfold clear_verification_code, save, bind, write_row, ret; simpl.
  repeat split. apply lookup_insert_eq.
Qed.

Lemma verify_code_user_verified (now : datetime) (u : User) (c : string) (w : World) :
  is_email_verified u = true ->
  VerificationEmail.verify_code_user settings now u c w
  = (VerificationEmail.json_response true "Email already verified" 200, u, w).
Proof.
  intros H. unfold VerificationEmail.verify_code_user, is_verified.
  rewrite H. reflexivity.
Qed.

Lemma verify_code_user_invalid (now : datetime) (u : User) (c : string) (w : World) :
  is_email_verified u = false ->
  is_verification_code_valid settings now u c = false ->
  VerificationEmail.verify_code_user settings now u c w
  = (VerificationEmail.json_response false "Invalid or expired verification code" 400,
     u, w).
Proof.
  intros H V. unfold VerificationEmail.verify_code_user, is_verified, verify_code.
  rewrite H, V. reflexivity.
Qed.

Lemma verify_code_user_valid (now : datetime) (u : User) (c : string) (w : World) :
  is_email_verified u = false ->
  is_verification_code_valid settings now u c = true ->
  let r := VerificationEmail.verify_code_user settings now u c w in
  result_kind (fst (fst r)) = Some Verified /\
  status (fst (fst r)) = 200 /\
  is_email_verified (snd (fst r)) = true /\
  verification_code (snd (fst r)) = None /\
  verification_code_created (snd (fst r)) = None /\
  users (snd r) !! email u = Some (snd (fst r)).
Proof.
  intros H V. unfold VerificationEmail.verify_code_user, is_verified, verify_code.
  rewrite H, V. unfold save, bind, write_row, ret; simpl.
  repeat split. apply lookup_insert_eq.
Qed.

(** A candidate that differs from the stored code, or a code older than
    the timeout, does not pass the check. *)
Lemma mismatch_or_expired_invalid (now : datetime) (u : User) (c : string) :
  verification_code u <> Some c \/ expired settings now u ->
  is_verification_code_valid settings now u c = false.
Proof.
  intros H. apply not_true_is_false. rewrite is_valid_iff.
  intros (created & Hc & _ & Ht & Hle).
  destruct H as [H | (created' & Ht' & Hlt)]; [congruence|].
  rewrite Ht in Ht'. injection Ht' as <-. lia.
Qed.

End Consume.

(** ** The views around the fragments

    A view validates the request, fetches the user and then runs the
    fragment on it; the response is the fragment's, the world is the one
    the fragment leaves. *)

Section Requests.

Variable settings : Settings.

Lemma verify_email_fetched
    (now : datetime) (mail code : string) (u : User) (w : World) :
  mail <> "" ->
  code <> "" ->
  users w !! mail = Some u ->
  Views.verify_email settings now
    {| payload_email := Some mail; payload_code := Some code |} w
  = (fst (fst (Views.verify_email_user settings now u code w)),
     snd (Views.verify_email_user settings now u code w)).
Proof.
  intros Hm Hc Hu. unfold Views.verify_email; cbn [payload_email payload_code].
  apply String.eqb_neq in Hm, Hc. rewrite Hm, Hc. cbn [orb].
  unfold bind, objects_get. rewrite Hu.
  destruct (Views.verify_email_user settings now u code w) as [[r u'] w'].
  reflexivity.
Qed.

(** An empty or missing code never reaches the fragment: the view
    answers 400 [missing_fields] before it looks the user up. *)
Lemma verify_email_empty_code (now : datetime) (mail : option string) (w : World) :
  Views.verify_email settings now
    {| payload_email := mail; payload_code := Some "" |} w
  = ({| data := [("error", JStr "هر دو فیلد ایمیل و کد تأیید الزامی هستند.");
                 ("code", JStr "missing_fields")];
        status := 400 |}, w).
Proof.
  unfold Views.verify_email; cbn [payload_email payload_code].
  destruct mail as [m|]; [|reflexivity].
  cbn [String.eqb]. now rewrite orb_true_r.
Qed.

Lemma verify_code_fetched
    (now : datetime) (mail code : string) (u : User) (w : World) :
  mail <> "" ->
  code <> "" ->
  users w !! mail = Some u ->
  VerificationEmail.verify_code settings now
    (Some {| payload_email := Some mail; payload_code := Some code |}) w
  = (fst (fst (VerificationEmail.verify_code_user settings now u code w)),
     snd (VerificationEmail.verify_code_user settings now u code w)).
Proof.
  intros Hm Hc Hu. unfold VerificationEmail.verify_code;
    cbn [payload_email payload_code].
  apply String.eqb_neq in Hm, Hc. rewrite Hm, Hc.
  unfold bind, objects_get. rewrite Hu.
  destruct (VerificationEmail.verify_code_user settings now u code w) as [[r u'] w'].
  reflexivity.
Qed.

Lemma resend_verification_fetched
    (now : datetime) (mail : MailOutcome) (address : string) (u : User) (w : World) :
  address <> "" ->
  users w !! address = Some u ->
  Views.resend_verification settings now mail
    {| payload_email := Some address; payload_code := None |} w
  = (fst (fst (Views.resend_verification_user settings now mail u w)),
     snd (Views.resend_verification_user settings now mail u w)).
Proof.
  intros Hm Hu. unfold Views.resend_verification; cbn [payload_email].
  apply String.eqb_neq in Hm. rewrite Hm.
  unfold bind, objects_get. rewrite Hu.
  destruct (Views.resend_verification_user settings now mail u w) as [[r u'] w'].
  reflexivity.
Qed.

End Requests.

(** C2, as stated, fails: with [VERIFICATION_CODE_LENGTH = 0] the code
    that [issue] returns to the unverified user is the empty string, and
    consuming it at once does not yield Verified.  The [verify_email]
    request is answered 400 [missing_fields] and leaves the world as it
    was; the lines that follow the look-up, run on that user and code,
    answer [invalid_code].  The user stays unverified either way. *)
Lemma consume_after_empty_issue_counterexample :
  let settings := {| EMAIL_VERIFICATION_TIMEOUT := Some 3600;
                     VERIFICATION_CODE_LENGTH := Some 0 |} in
  let issued := Views.issue settings 1000 Examples.alice None
                  (Examples.world Examples.tape_042917) in
  let c := fst (fst issued) in
  let answer := Views.verify_email settings 1000
                  {| payload_email := Some "alice@example.com";
                     payload_code := Some c |} (snd issued) in
  let consumed := Views.verify_email_user settings 1000 (snd (fst issued)) c
                    (snd issued) in
  is_email_verified Examples.alice = false /\
  users (snd issued) !! "alice@example.com" = Some (snd (fst issued)) /\
  status (fst answer) = 400 /\
  result_kind (fst answer) = None /\
  snd answer = snd issued /\
  result_kind (fst (fst consumed)) = Some InvalidOrExpired /\
  is_email_verified (snd (fst consumed)) = false.
Proof. vm_compute. auto 10. Qed.

(** C2, amended.  For an unverified user, consuming the code that [issue]
    has just returned, when that code is not the empty string and no
    more than the timeout has elapsed, yields Verified; the user is then
    verified, with code and time stamp both cleared, and that is the row
    stored.  Consuming the same code once more, at any instant, yields
    AlreadyVerified. *)
Theorem consume_after_issue
    (settings : Settings) (t0 t1 : datetime) (u : User) (length : option Z)
    (w : World) :
  let issued := Views.issue settings t0 u length w in
  let c := fst (fst issued) in
  let first := Views.verify_email_user settings t1 (snd (fst issued)) c (snd issued) in
  let u' := snd (fst first) in
  is_email_verified u = false ->
  c <> "" ->
  t1 - t0 <= seconds (getattr (EMAIL_VERIFICATION_TIMEOUT settings) 3600) ->
  result_kind (fst (fst first)) = Some Verified /\
  is_email_verified u' = true /\
  verification_code u' = None /\
  verification_code_created u' = None /\
  users (snd first) !! email u' = Some u' /\
  forall t2 : datetime,
    result_kind (fst (fst (Views.verify_email_user settings t2 u' c (snd first))))
    = Some AlreadyVerified.
Proof.
  intros issued c first u' Hu Hne Hle.
  destruct (issue_fields settings t0 u length w) as (Hc & Ht & Hv & _).
  fold issued in Hc, Ht, Hv. fold c in Hc.
  assert (V : is_verification_code_valid settings t1 (snd (fst issued)) c = true)
    by (apply (held_code_valid_iff settings t1 t0 _ c Hc Ht Hne); exact Hle).
  rewrite Hu in Hv.
  destruct (verify_email_user_valid settings t1 (snd (fst issued)) c (snd issued) Hv V)
    as (R & _ & Hver & Hcode & Hcreated & Hmail & Hrow).
  fold first in R, Hver, Hcode, Hcreated, Hmail, Hrow.
  fold u' in Hver, Hcode, Hcreated, Hmail, Hrow.
  repeat (split; [assumption|]).
  split; [now rewrite Hmail|].
  intros t2. now rewrite (verify_email_user_verified settings t2 u' c (snd first) Hver).
Qed.

Lemma consume_after_issue_witness :
  let issued := Views.issue no_settings 1000 Examples.alice None
                  (Examples.world Examples.tape_042917) in
  let first := Views.verify_email_user no_settings 1000 (snd (fst issued))
                 (fst (fst issued)) (snd issued) in
  result_kind (fst (fst first)) = Some Verified /\
  is_email_verified (snd (fst first)) = true /\
  verification_code (snd (fst first)) = None /\
  verification_code_created (snd (fst first)) = None /\
  users (snd first) !! email (snd (fst first)) = Some (snd (fst first)) /\
  forall t2 : datetime,
    result_kind (fst (fst (Views.verify_email_user no_settings t2 (snd (fst first))
                             (fst (fst issued)) (snd first))))
    = Some AlreadyVerified.
Proof.
  apply (consume_after_issue no_settings 1000 1000 Examples.alice None
           (Examples.world Examples.tape_042917)).
  - reflexivity.
  - vm_compute. discriminate.
  - vm_compute. discriminate.
Defined.

(** C3.  For a user who is not yet verified, consuming a candidate that
    differs from the stored code, or consuming when the stored code is
    older than the timeout, yields InvalidOrExpired and changes nothing:
    the object is the one passed in ([is_email_verified] still false,
    code and time stamp as they were) and the world, hence the stored
    row, is the same. *)
Theorem failed_consume_changes_nothing
    (settings : Settings) (now : datetime) (u : User) (candidate : string)
    (w : World) :
  is_email_verified u = false ->
  verification_code u <> Some candidate \/ expired settings now u ->
  let r := Views.verify_email_user settings now u candidate w in
  result_kind (fst (fst r)) = Some InvalidOrExpired /\
  snd (fst r) = u /\
  snd r = w /\
  is_email_verified (snd (fst r)) = false /\
  verification_code (snd (fst r)) = verification_code u /\
  verification_code_created (snd (fst r)) = verification_code_created u.
Proof.
  intros Hu Hbad r. subst r.
  rewrite (verify_email_user_invalid settings now u candidate w Hu
             (mismatch_or_expired_invalid settings now u candidate Hbad)).
  simpl. repeat split. exact Hu.
Qed.

Lemma failed_consume_changes_nothing_witness :
  let issued := Views.issue no_settings 1000 Examples.alice None
                  (Examples.world Examples.tape_042917) in
  let u := snd (fst issued) in
  let r := Views.verify_email_user no_settings 1000 u "654321" (snd issued) in
  result_kind (fst (fst r)) = Some InvalidOrExpired /\
  snd (fst r) = u /\
  snd r = snd issued /\
  is_email_verified (snd (fst r)) = false /\
  verification_code (snd (fst r)) = verification_code u /\
  verification_code_created (snd (fst r)) = verification_code_created u.
Proof.
  apply (failed_consume_changes_nothing no_settings 1000
           (snd (fst (Views.issue no_settings 1000 Examples.alice None
                        (Examples.world Examples.tape_042917))))
           "654321").
  - reflexivity.
  - left. vm_compute. discriminate.
Defined.

(** C4, as stated, fails for the empty candidate: both endpoints answer
    a verified user's request that carries an empty code, or none, with
    an error (400) before they look the user up; the answer is not
    AlreadyVerified. *)
Lemma verified_empty_candidate_counterexample :
  let w := Examples.world Examples.tape_042917 in
  let request := {| payload_email := Some "bob@example.com";
                    payload_code := Some "" |} in
  let r := Views.verify_email no_settings 1000 request w in
  let r' := VerificationEmail.verify_code no_settings 1000 (Some request) w in
  users w !! "bob@example.com" = Some Examples.verified_bob /\
  is_email_verified Examples.verified_bob = true /\
  (status (fst r) = 400 /\ is_error (fst r) = true /\
   result_kind (fst r) = None /\
   body_get "code" (data (fst r)) = Some (JStr "missing_fields")) /\
  (status (fst r') = 400 /\ is_error (fst r') = true /\
   result_kind (fst r') = None /\
   body_get "success" (data (fst r')) = Some (JBool false)).
Proof. vm_compute. auto 10. Qed.

(** C4, amended.  For a stored user who is already verified, a request
    to consume any candidate that is not empty is answered
    AlreadyVerified, by [verify_email] and by [verify_code] alike; the
    world, hence the stored row and every field of it, is unchanged, and
    the response is a success report: status 200, no ['error'] entry,
    and in [verify_code] ['success': True]. *)
Theorem already_verified_is_noop
    (settings : Settings) (now : datetime) (mail candidate : string)
    (u : User) (w : World) :
  mail <> "" ->
  candidate <> "" ->
  users w !! mail = Some u ->
  is_email_verified u = true ->
  let request := {| payload_email := Some mail; payload_code := Some candidate |} in
  let r := Views.verify_email settings now request w in
  let r' := VerificationEmail.verify_code settings now (Some request) w in
  (result_kind (fst r) = Some AlreadyVerified /\
   snd r = w /\ users (snd r) !! mail = Some u /\
   status (fst r) = 200 /\ is_error (fst r) = false) /\
  (result_kind (fst r') = Some AlreadyVerified /\
   snd r' = w /\ users (snd r') !! mail = Some u /\
   status (fst r') = 200 /\ is_error (fst r') = false /\
   body_get "success" (data (fst r')) = Some (JBool true)).
Proof.
  intros Hm Hc Hrow Hu request r r'. subst r r' request.
  rewrite (verify_email_fetched settings now mail candidate u w Hm Hc Hrow).
  rewrite (verify_code_fetched settings now mail candidate u w Hm Hc Hrow).
  rewrite (verify_email_user_verified settings now u candidate w Hu).
  rewrite (verify_code_user_verified settings now u candidate w Hu).
  cbn [fst snd]. repeat split; assumption || reflexivity.
Qed.

Lemma already_verified_is_noop_witness :
  let w := Examples.world Examples.tape_042917 in
  let request := {| payload_email := Some "bob@example.com";
                    payload_code := Some "999999" |} in
  let r := Views.verify_email no_settings 1000 request w in
  let r' := VerificationEmail.verify_code no_settings 1000 (Some request) w in
  (result_kind (fst r) = Some AlreadyVerified /\
   snd r = w /\ users (snd r) !! "bob@example.com" = Some Examples.verified_bob /\
   status (fst r) = 200 /\ is_error (fst r) = false) /\
  (result_kind (fst r') = Some AlreadyVerified /\
   snd r' = w /\ users (snd r') !! "bob@example.com" = Some Examples.verified_bob /\
   status (fst r') = 200 /\ is_error (fst r') = false /\
   body_get "success" (data (fst r')) = Some (JBool true)).
Proof.
  apply (already_verified_is_noop no_settings 1000 "bob@example.com" "999999"
           Examples.verified_bob (Examples.world Examples.tape_042917)).
  - discriminate.
  - discriminate.
  - reflexivity.
  - reflexivity.
Defined.

(** C10.  Two failing runs of consume on unverified users, one with a
    candidate that differs from the stored code and one with the right
    candidate for a code older than the timeout, return the very same
    response, status and body, and its kind is InvalidOrExpired. *)
Theorem failure_modes_indistinguishable
    (settings : Settings) (now1 now2 : datetime) (u1 u2 : User)
    (c1 c2 : string) (w1 w2 : World) :
  is_email_verified u1 = false ->
  is_email_verified u2 = false ->
  verification_code u1 <> Some c1 ->
  verification_code u2 = Some c2 ->
  expired settings now2 u2 ->
  let wrong := fst (fst (Views.verify_email_user settings now1 u1 c1 w1)) in
  let stale := fst (fst (Views.verify_email_user settings now2 u2 c2 w2)) in
  wrong = stale /\
  result_kind wrong = Some InvalidOrExpired /\
  result_kind stale = Some InvalidOrExpired.
Proof.
  intros H1 H2 Hwrong Hright Hstale wrong stale. subst wrong stale.
  rewrite (verify_email_user_invalid settings now1 u1 c1 w1 H1
             (mismatch_or_expired_invalid settings now1 u1 c1 (or_introl Hwrong))).
  rewrite (verify_email_user_invalid settings now2 u2 c2 w2 H2
             (mismatch_or_expired_invalid settings now2 u2 c2 (or_intror Hstale))).
  simpl. repeat split.
Qed.

Lemma failure_modes_indistinguishable_witness :
  let issued := Views.issue no_settings 1000 Examples.alice None
                  (Examples.world Examples.tape_042917) in
  let u := snd (fst issued) in
  let wrong := fst (fst (Views.verify_email_user no_settings 1000 u "654321"
                           (snd issued))) in
  let stale := fst (fst (Views.verify_email_user no_settings (1000 + seconds 3601) u
                           "042917" (snd issued))) in
  wrong = stale /\
  result_kind wrong = Some InvalidOrExpired /\
  result_kind stale = Some InvalidOrExpired.
Proof.
  apply (failure_modes_indistinguishable no_settings 1000 (1000 + seconds 3601)
           (snd (fst (Views.issue no_settings 1000 Examples.alice None
                        (Examples.world Examples.tape_042917))))
           (snd (fst (Views.issue no_settings 1000 Examples.alice None
                        (Examples.world Examples.tape_042917))))
           "654321" "042917").
  - reflexivity.
  - reflexivity.
  - vm_compute. discriminate.
  - reflexivity.
  - exists 1000. split; [reflexivity | vm_compute; reflexivity].
Defined.

(** ** Invariants of the lifecycle *)

Section Invariants.

Variable settings : Settings.

Lemma code_iff_created_both (c : option string) (t : option datetime) (u : User) :
  (is_Some c <-> is_Some t) -> code_iff_created (with_code c t u).
Proof. unfold code_iff_created; simpl; tauto. Qed.

Lemma save_code_iff_created (now : datetime) (u : User) (w : World) :
  code_iff_created u ->
  rows_code_iff_created w ->
  code_iff_created (fst (save now u w)) /\ rows_code_iff_created (snd (save now u w)).
Proof.
  intros Hu Hw. unfold save, bind, write_row, ret; simpl.
  assert (H : code_iff_created
                {| username := if String.eqb (username u) ""
                                  && negb (String.eqb (email u) "")
                               then email u else username u;
                   email := email u;
                   updated_at := now;
                   is_email_verified := is_email_verified u;
                   verification_code := verification_code u;
                   verification_code_created := verification_code_created u |})
    by exact Hu.
  split; [exact H|].
  unfold rows_code_iff_created; simpl. now apply map_Forall_insert_2.
Qed.

Lemma save_verified (now : datetime) (u : User) (w : World) :
  is_email_verified (fst (save now u w)) = is_email_verified u.
Proof. reflexivity. Qed.

Lemma with_verified_code_iff_created (b : bool) (u : User) :
  code_iff_created u -> code_iff_created (with_verified b u).
Proof. unfold code_iff_created; simpl; tauto. Qed.

Lemma with_random_rows {A : Type} (f : Random -> A * Random) (w : World) :
  users (snd (with_random f w)) = users w.
Proof. unfold with_random. destruct (f (random w)); reflexivity. Qed.

Lemma some_iff_some {A B : Type} (a : A) (b : B) : is_Some (Some a) <-> is_Some (Some b).
Proof. split; intros _; eauto. Qed.

Lemma none_iff_none {A B : Type} : is_Some (@None A) <-> is_Some (@None B).
Proof. split; intros [x Hx]; discriminate. Qed.

Ltac save_step :=
  match goal with
  | |- context [save ?now ?u ?w] =>
      let Hs := fresh "Hs" in
      let Hr := fresh "Hr" in
      let Hu' := fresh "Hu" in
      let Hw' := fresh "Hw" in
      assert (Hu' : code_iff_created u)
        by first [ assumption
                 | apply code_iff_created_both;
                   first [apply some_iff_some | apply none_iff_none]
                 | apply with_verified_code_iff_created; assumption ];
      assert (Hw' : rows_code_iff_created w) by assumption;
      destruct (save_code_iff_created now u w Hu' Hw') as [Hs Hr];
      destruct (save now u w) as [? ?]; cbn [fst snd] in *
  end.

Lemma step_code_iff_created (now : datetime) (op : Op) (u : User) (w : World) :
  code_iff_created u ->
  rows_code_iff_created w ->
  code_iff_created (fst (step settings now op u w)) /\
  rows_code_iff_created (snd (step settings now op u w)).
Proof.
  intros Hu Hw.
  destruct op; unfold step.
  - unfold set_verification_code. save_step. auto.
  - unfold clear_verification_code. save_step. auto.
  - unfold UserModel.generate_verification_code, bind, ret.
    pose proof (with_random_rows (fun g => draws g 6) w) as E.
    destruct (with_random _ w) as [ds w1]; simpl in E.
    assert (Hw1 : rows_code_iff_created w1) by (unfold rows_code_iff_created; now rewrite E).
    save_step. auto.
  - simpl. auto.
  - unfold Views.issue, bind, ret.
    pose proof (utils_generate_spec settings length w) as E. simpl in E. rewrite E.
    unfold set_verification_code.
    match goal with |- context [save _ _ ?w1] =>
      assert (Hw1 : rows_code_iff_created w1) by exact Hw end.
    save_step. auto.
  - unfold Views.verify_email_user, bind, ret.
    destruct (is_email_verified u); [cbn [fst snd]; auto|].
    destruct (is_verification_code_valid settings now u code); cbn [negb fst snd]; [|auto].
    unfold clear_verification_code. save_step. save_step. auto.
  - unfold VerificationEmail.verify_code_user, verify_code, is_verified, bind, ret.
    destruct (is_email_verified u); [cbn [fst snd]; auto|].
    destruct (is_verification_code_valid settings now u code); cbn [negb fst snd]; [|auto].
    save_step. auto.
  - unfold Views.resend_verification_user, bind, ret.
    destruct (is_email_verified u); [cbn [fst snd]; auto|].
    unfold Views.issue, bind, ret.
    pose proof (utils_generate_spec settings None w) as E. simpl in E. rewrite E.
    unfold set_verification_code.
    match goal with |- context [save _ _ ?w1] =>
      assert (Hw1 : rows_code_iff_created w1) by exact Hw end.
    save_step.
    destruct mail; [cbn [fst snd]; auto|].
    destruct (EMAIL_VERIFICATION_TIMEOUT settings); cbn [fst snd]; auto.
  - unfold VerificationEmail.send_verification_email_user, is_verified, bind, ret.
    destruct (is_email_verified u); [cbn [fst snd]; auto|].
    unfold UserModel.generate_verification_code, bind, ret.
    pose proof (with_random_rows (fun g => draws g 6) w) as E.
    destruct (with_random _ w) as [ds w1]; simpl in E.
    assert (Hw1 : rows_code_iff_created w1) by (unfold rows_code_iff_created; now rewrite E).
    save_step.
    destruct mail; cbn [fst snd]; auto.
  - unfold Views.debug_direct_verify_user, bind, ret.
    destruct (is_email_verified u); [cbn [fst snd]; auto|].
    unfold clear_verification_code. save_step. save_step. auto.
  - unfold VerifyUserCommand.handle_user, ret.
    destruct (is_email_verified u); [cbn [fst snd]; auto|].
    save_step. auto.
Qed.

Lemma steps_code_iff_created (ops : list (datetime * Op)) :
  forall (u : User) (w : World),
    code_iff_created u ->
    rows_code_iff_created w ->
    code_iff_created (fst (steps settings ops u w)) /\
    rows_code_iff_created (snd (steps settings ops u w)).
Proof.
  induction ops as [|[now op] ops IH]; intros u w Hu Hw; [split; assumption|].
  cbn [steps]. unfold bind.
  destruct (step_code_iff_created now op u w Hu Hw) as [Hu1 Hw1].
  destruct (step settings now op u w) as [u1 w1]. now apply IH.
Qed.

Lemma create_user_code_iff_created
    (normalize_email : string -> string)
    (now : datetime) (mail name : string) (verified : bool) (w : World) :
  rows_code_iff_created w ->
  match create_user normalize_email now mail name verified w with
  | (Some u, w') => code_iff_created u /\ rows_code_iff_created w'
  | (None, w') => w' = w
  end.
Proof.
  intros Hw. unfold create_user.
  destruct (String.eqb mail ""); [reflexivity|].
  unfold bind, objects_get, username_exists.
  destruct (users w !! normalize_email mail); [reflexivity|].
  destruct (existsb _ _); [reflexivity|].
  match goal with |- context [save ?n ?u0 ?w0] =>
    destruct (save_code_iff_created n u0 w0) as [Hs Hr];
    [ apply none_iff_none | exact Hw | destruct (save n u0 w0) as [u1 w1] ]
  end.
  split; assumption.
Qed.

(** *** The flag [is_email_verified] *)

Lemma step_keeps_verified (now : datetime) (op : Op) (u : User) (w : World) :
  is_email_verified u = true ->
  is_email_verified (fst (step settings now op u w)) = true.
Proof.
  intros H.
  destruct op; unfold step, Views.verify_email_user,
    VerificationEmail.verify_code_user, Views.resend_verification_user,
    VerificationEmail.send_verification_email_user, Views.debug_direct_verify_user,
    VerifyUserCommand.handle_user, is_verified; rewrite ?H;
    try (cbn [bind ret fst snd]; exact H).
  unfold Views.issue, bind. rewrite utils_generate_spec. exact H.
Qed.

Lemma steps_keep_verified (ops : list (datetime * Op)) :
  forall (u : User) (w : World),
    is_email_verified u = true ->
    is_email_verified (fst (steps settings ops u w)) = true.
Proof.
  induction ops as [|[now op] ops IH]; intros u w H; [exact H|].
  cbn [steps]. unfold bind.
  pose proof (step_keeps_verified now op u w H) as H1.
  destruct (step settings now op u w) as [u1 w1]. now apply IH.
Qed.

Lemma steps_app (ops1 ops2 : list (datetime * Op)) :
  forall (u : User) (w : World),
    steps settings (ops1 ++ ops2) u w
    = steps settings ops2 (fst (steps settings ops1 u w))
        (snd (steps settings ops1 u w)).
Proof.
  induction ops1 as [|[now op] ops1 IH]; intros u w; [reflexivity|].
  cbn [app steps]. unfold bind.
  destruct (step settings now op u w) as [u1 w1]. apply IH.
Qed.

(** *** The object and its row

    Each view fetches the user afresh; threading the object from one
    operation to the next, as [steps] does, is the same thing, because
    the object an operation ends with is the row it leaves behind. *)

Lemma step_row_sync (now : datetime) (op : Op) (u : User) (w : World) :
  users w !! email u = Some u ->
  email (fst (step settings now op u w)) = email u /\
  users (snd (step settings now op u w)) !! email u
  = Some (fst (step settings now op u w)).
Proof.
  intros H.
  destruct op; unfold step, Views.verify_email_user,
    VerificationEmail.verify_code_user, Views.resend_verification_user,
    VerificationEmail.send_verification_email_user, Views.debug_direct_verify_user,
    VerifyUserCommand.handle_user, is_verified, verify_code,
    set_verification_code, clear_verification_code, Views.issue,
    UserModel.generate_verification_code, bind;
    rewrite ?utils_generate_spec;
    repeat match goal with
           | |- context [if ?b then _ else _] => destruct b eqn:?
           | |- context [match ?m with Some _ => _ | None => _ end] => destruct m eqn:?
           end;
    cbn beta iota; rewrite ?utils_generate_spec;
    unfold save, bind, write_row, with_random, ret; cbn;
    (split; [reflexivity|]); first [exact H | apply lookup_insert_eq].
Qed.

Lemma steps_row_sync (ops : list (datetime * Op)) :
  forall (u : User) (w : World),
    users w !! email u = Some u ->
    email (fst (steps settings ops u w)) = email u /\
    users (snd (steps settings ops u w)) !! email u
    = Some (fst (steps settings ops u w)).
Proof.
  induction ops as [|[now op] ops IH]; intros u w H; [split; [reflexivity | exact H]|].
  cbn [steps]. unfold bind.
  destruct (step_row_sync now op u w H) as [E1 R1].
  destruct (step settings now op u w) as [u1 w1]; cbn [fst snd] in *.
  rewrite <- E1 in R1. destruct (IH u1 w1 R1) as [E2 R2].
  rewrite <- E1. split; [exact E2 | exact R2].
Qed.

End Invariants.

(** C8.  [code] is set iff [issuedAt] is set, throughout the lifecycle:
    a created account satisfies it (both columns absent), and every
    sequence of operations (the model methods, issue, the validity
    check, consume in [verify_email] and [verify_code] with all their
    outcomes, resend, direct verification) carries it from the object it
    starts with to the object it ends with, and from the rows of the
    table before to the rows after. *)
Theorem code_iff_created_invariant (settings : Settings) :
  (forall (normalize_email : string -> string)
          (now : datetime) (mail name : string) (verified : bool) (w : World),
      rows_code_iff_created w ->
      match create_user normalize_email now mail name verified w with
      | (Some u, w') => code_iff_created u /\ rows_code_iff_created w'
      | (None, w') => w' = w
      end) /\
  (forall (ops : list (datetime * Op)) (u : User) (w : World),
      code_iff_created u ->
      rows_code_iff_created w ->
      code_iff_created (fst (steps settings ops u w)) /\
      rows_code_iff_created (snd (steps settings ops u w))).
Proof.
  split.
  - intros normalize_email now mail name verified w.
    apply create_user_code_iff_created.
  - intros ops. apply steps_code_iff_created.
Qed.

Lemma code_iff_created_invariant_witness :
  let w := Examples.world Examples.tape_042917 in
  let ops := [(1000, Issue None);
              (2000, VerifyEmail "654321");
              (3000, VerifyEmail "042917");
              (4000, SetVerificationCode "123456")] in
  (code_iff_created Examples.alice /\ rows_code_iff_created w) /\
  code_iff_created (fst (steps no_settings ops Examples.alice w)) /\
  rows_code_iff_created (snd (steps no_settings ops Examples.alice w)).
Proof.
  assert (Ha : code_iff_created Examples.alice) by apply none_iff_none.
  assert (Hw : rows_code_iff_created (Examples.world Examples.tape_042917)).
  { unfold rows_code_iff_created, Examples.world; simpl.
    apply map_Forall_insert_2; [apply none_iff_none|].
    apply map_Forall_insert_2; [apply none_iff_none|].
    apply map_Forall_empty. }
  split; [split; assumption|].
  exact (proj2 (code_iff_created_invariant no_settings) _ Examples.alice
           (Examples.world Examples.tape_042917) Ha Hw).
Defined.

(** C9.  The flag [is_email_verified] is monotonic: if it is true after a
    sequence of operations, it is true after every continuation of that
    sequence; no operation of the lifecycle sets it back to false. *)
Theorem verified_is_monotonic
    (settings : Settings) (ops more : list (datetime * Op)) (u : User) (w : World) :
  is_email_verified (fst (steps settings ops u w)) = true ->
  is_email_verified (fst (steps settings (ops ++ more) u w)) = true.
Proof.
  intros H. rewrite steps_app. now apply steps_keep_verified.
Qed.

Lemma verified_is_monotonic_witness :
  let w := Examples.world Examples.tape_042917 in
  let ops := [(1000, Issue None); (2000, VerifyEmail "042917")] in
  let more := [(3000, ResendVerification None);
               (4000, Issue (Some 4));
               (5000, VerifyCode "0000");
               (6000, ClearVerificationCode)] in
  is_email_verified (fst (steps no_settings ops Examples.alice w)) = true /\
  is_email_verified (fst (steps no_settings (ops ++ more) Examples.alice w)) = true.
Proof.
  assert (H : is_email_verified
                (fst (steps no_settings
                        [(1000, Issue None); (2000, VerifyEmail "042917")]
                        Examples.alice (Examples.world Examples.tape_042917)))
              = true) by reflexivity.
  split; [exact H|].
  exact (verified_is_monotonic no_settings _ _ Examples.alice
           (Examples.world Examples.tape_042917) H).
Defined.

(** * Further properties of the code *)

(** ** The validity check *)

(** X1.  Validity never comes back: a candidate that passes the check at
    some instant passes it at every earlier instant too, so a candidate
    refused at [earlier] is refused at every later instant (as long as
    the stored code is not replaced). *)
Theorem validity_does_not_return
    (settings : Settings) (earlier later : datetime) (u : User) (c : string) :
  earlier <= later ->
  is_verification_code_valid settings later u c = true ->
  is_verification_code_valid settings earlier u c = true.
Proof.
  intros Hle. rewrite !is_valid_iff.
  intros (created & Hc & Hne & Ht & Hel).
  exists created. repeat split; try assumption. lia.
Qed.

Lemma validity_does_not_return_witness :
  let u := snd (fst (Views.issue no_settings 1000 Examples.alice None
                       (Examples.world Examples.tape_042917))) in
  is_verification_code_valid no_settings (1000 + seconds 3600) u "042917" = true /\
  is_verification_code_valid no_settings 2000 u "042917" = true.
Proof.
  assert (H : is_verification_code_valid no_settings (1000 + seconds 3600)
                (snd (fst (Views.issue no_settings 1000 Examples.alice None
                             (Examples.world Examples.tape_042917))))
                "042917" = true) by reflexivity.
  split; [exact H|].
  apply (validity_does_not_return no_settings 2000 (1000 + seconds 3600) _ "042917");
    [vm_compute; discriminate | exact H].
Defined.

(** X2.  At most one candidate can pass: two candidates accepted for the
    same user, at whatever instants, are the same string, namely the
    stored code. *)
Theorem accepted_candidates_coincide
    (settings : Settings) (now1 now2 : datetime) (u : User) (c1 c2 : string) :
  is_verification_code_valid settings now1 u c1 = true ->
  is_verification_code_valid settings now2 u c2 = true ->
  c1 = c2 /\ verification_code u = Some c1.
Proof.
  rewrite !is_valid_iff.
  intros (t1 & H1 & _) (t2 & H2 & _). split; congruence.
Qed.

Lemma accepted_candidates_coincide_witness :
  let u := snd (fst (Views.issue no_settings 1000 Examples.alice None
                       (Examples.world Examples.tape_042917))) in
  "042917" = "042917" /\ verification_code u = Some "042917".
Proof.
  apply (accepted_candidates_coincide no_settings 1000 2000
           (snd (fst (Views.issue no_settings 1000 Examples.alice None
                        (Examples.world Examples.tape_042917)))));
    reflexivity.
Defined.

(** X3.  An account that [create_user] has just made accepts no
    candidate, at any instant, under any settings. *)
Theorem new_account_accepts_nothing
    (normalize_email : string -> string) (settings : Settings)
    (created_at now : datetime) (mail name candidate : string) (verified : bool)
    (w : World) (u : User) :
  fst (create_user normalize_email created_at mail name verified w) = Some u ->
  is_verification_code_valid settings now u candidate = false.
Proof.
  unfold create_user. destruct (String.eqb mail ""); [discriminate|].
  unfold bind, objects_get, username_exists.
  destruct (users w !! normalize_email mail); [discriminate|].
  destruct (existsb _ _); [discriminate|].
  unfold save, bind, write_row, ret; cbn [fst].
  intros [= <-]. reflexivity.
Qed.

Lemma new_account_accepts_nothing_witness :
  is_verification_code_valid no_settings 50
    {| username := "carol"; email := "carol@example.com"; updated_at := 10;
       is_email_verified := false; verification_code := None;
       verification_code_created := None |} "" = false.
Proof.
  apply (new_account_accepts_nothing (fun s => s) no_settings 10 50
           "carol@example.com" "carol" "" false
           (Examples.world Examples.tape_042917)).
  reflexivity.
Defined.

(** ** What a request does to the user table *)

Section Effects.

Variable settings : Settings.

Lemma step_users (now : datetime) (op : Op) (u : User) (w : World) :
  email (fst (step settings now op u w)) = email u /\
  (users (snd (step settings now op u w)) = users w \/
   users (snd (step settings now op u w))
   = <[email u := fst (step settings now op u w)]> (users w)).
Proof.
  destruct op; unfold step, Views.verify_email_user,
    VerificationEmail.verify_code_user, Views.resend_verification_user,
    VerificationEmail.send_verification_email_user, Views.debug_direct_verify_user,
    VerifyUserCommand.handle_user, is_verified, verify_code,
    set_verification_code, clear_verification_code, Views.issue,
    UserModel.generate_verification_code, bind;
    rewrite ?utils_generate_spec;
    repeat match goal with
           | |- context [if ?b then _ else _] => destruct b eqn:?
           | |- context [match ?m with Some _ => _ | None => _ end] => destruct m eqn:?
           end;
    cbn beta iota; rewrite ?utils_generate_spec;
    unfold save, bind, write_row, with_random, ret; cbn;
    (split; [reflexivity|]);
    first [left; reflexivity | right; rewrite ?insert_insert_eq; reflexivity].
Qed.

Lemma step_guarded (now : datetime) (op : Op) (u : User) (w : World) :
  Site.guarded op = true ->
  is_email_verified u = true ->
  step settings now op u w = (u, w).
Proof.
  intros G H.
  destruct op; try discriminate G; unfold step, Views.verify_email_user,
    VerificationEmail.verify_code_user, Views.resend_verification_user,
    VerificationEmail.send_verification_email_user, Views.debug_direct_verify_user,
    VerifyUserCommand.handle_user, is_verified, bind; rewrite H; reflexivity.
Qed.

(** A request either leaves the world as it is, or acts as one operation
    on the user it names. *)
Lemma handle_cases (now : datetime) (r : Site.Request) (w : World) :
  snd (Site.handle settings now r w) = w \/ Site.acts_as settings now r w.
Proof.
  destruct r as [[pe pc]|[[pe pc]|]|m [pe pc]|m [[pe pc]|]|[pe pc]|d [pe pc]|e|e];
    unfold Site.acts_as; cbn [Site.handle Site.addressed].
  - unfold Views.verify_email; cbn [payload_email payload_code].
    destruct pe as [e|]; [|left; reflexivity].
    destruct pc as [c|]; [|left; reflexivity].
    destruct (String.eqb e ""); [left; reflexivity|].
    destruct (String.eqb c ""); [left; reflexivity|]. cbn [orb].
    unfold bind, objects_get.
    destruct (users w !! e) as [u|] eqn:Hu; [right|left; reflexivity].
    exists e, u, (VerifyEmail c). repeat split; auto.
    unfold step, bind, ret.
    destruct (Views.verify_email_user _ _ _ _ _) as [[? ?] ?]. reflexivity.
  - unfold VerificationEmail.verify_code; cbn [payload_email payload_code].
    destruct pe as [e|]; [|left; reflexivity].
    destruct (String.eqb e ""); [left; reflexivity|].
    destruct pc as [c|]; [|left; reflexivity].
    destruct (String.eqb c ""); [left; reflexivity|].
    unfold bind, objects_get.
    destruct (users w !! e) as [u|] eqn:Hu; [right|left; reflexivity].
    exists e, u, (VerifyCode c). repeat split; auto.
    unfold step, bind, ret.
    destruct (VerificationEmail.verify_code_user _ _ _ _ _) as [[? ?] ?]. reflexivity.
  - left; reflexivity.
  - unfold Views.resend_verification; cbn [payload_email].
    destruct pe as [e|]; [|left; reflexivity].
    destruct (String.eqb e ""); [left; reflexivity|].
    unfold bind, objects_get.
    destruct (users w !! e) as [u|] eqn:Hu; [right|left; reflexivity].
    exists e, u, (ResendVerification m). repeat split; auto.
    unfold step, bind, ret.
    destruct (Views.resend_verification_user _ _ _ _ _) as [[? ?] ?]. reflexivity.
  - unfold VerificationEmail.send_verification_email; cbn [payload_email].
    destruct pe as [e|]; [|left; reflexivity].
    destruct (String.eqb e ""); [left; reflexivity|].
    unfold bind, objects_get.
    destruct (users w !! e) as [u|] eqn:Hu; [right|left; reflexivity].
    exists e, u, (SendVerificationEmail m). repeat split; auto.
    unfold step, bind, ret.
    destruct (VerificationEmail.send_verification_email_user _ _ _ _) as [[? ?] ?].
    reflexivity.
  - left; reflexivity.
  - unfold DebugViews.debug_direct_verify; cbn [payload_email].
    destruct pe as [e|]; [|left; reflexivity].
    destruct (String.eqb e ""); [left; reflexivity|].
    unfold bind, objects_get.
    destruct (users w !! e) as [u|] eqn:Hu; [right|left; reflexivity].
    exists e, u, DebugDirectVerify. repeat split; auto.
    unfold step, bind, ret.
    destruct (Views.debug_direct_verify_user _ _ _) as [[? ?] ?]. reflexivity.
  - unfold DebugViews.debug_get_verification_code; cbn [payload_email].
    destruct d; cbn [negb]; [|left; reflexivity].
    destruct pe as [e|]; [|left; reflexivity].
    destruct (String.eqb e ""); [left; reflexivity|].
    unfold bind, objects_get.
    destruct (users w !! e) as [u|] eqn:Hu; [|left; reflexivity].
    destruct (is_email_verified u) eqn:Hv; [left; reflexivity|].
    destruct (not_str (verification_code u) || not_datetime (verification_code_created u)).
    + right. exists e, u, (Issue None). repeat split; auto.
      unfold step, bind, ret.
      destruct (Views.issue _ _ _ _ _) as [[? ?] ?]; cbn [fst snd].
      destruct (verification_code_created _), (EMAIL_VERIFICATION_TIMEOUT settings);
        reflexivity.
    + left. unfold ret; cbn [fst snd].
      destruct (verification_code_created _), (EMAIL_VERIFICATION_TIMEOUT settings);
        reflexivity.
  - unfold Commands.verify_user, bind, objects_get.
    destruct (users w !! e) as [u|] eqn:Hu; [right|left; reflexivity].
    exists e, u, VerifyUser. repeat split; auto.
    unfold step, ret.
    destruct (VerifyUserCommand.handle_user _ _ _) as [? ?]. reflexivity.
  - left. unfold Commands.get_verification_code, bind, objects_get.
    destruct (users w !! e); reflexivity.
Qed.

(** In terms of rows: the table is unchanged, or the row of an unverified
    user, stored under the e-mail the request names, is replaced by a
    row with the same e-mail. *)
Lemma handle_effect (now : datetime) (r : Site.Request) (w : World) :
  Site.keyed_by_email w ->
  users (snd (Site.handle settings now r w)) = users w \/
  exists (e : string) (u u' : User),
    Site.addressed r = Some e /\
    users w !! e = Some u /\
    is_email_verified u = false /\
    email u' = e /\
    users (snd (Site.handle settings now r w)) = <[e := u']> (users w).
Proof.
  intros K.
  destruct (handle_cases now r w) as [-> | (e & u & op & Ha & Hu & Hg & ->)];
    [left; reflexivity|].
  pose proof (K e u Hu) as Ke.
  destruct (is_email_verified u) eqn:Hv.
  - destruct Hg as [Hg | Hg]; [|discriminate].
    rewrite (step_guarded now op u w Hg Hv). left; reflexivity.
  - destruct (step_users now op u w) as [He [Hs | Hs]]; [left; exact Hs|].
    right. exists e, u, (fst (step settings now op u w)).
    repeat split; auto; congruence.
Qed.

Lemma handle_keeps_keys (now : datetime) (r : Site.Request) (w : World) :
  Site.keyed_by_email w ->
  Site.keyed_by_email (snd (Site.handle settings now r w)) /\
  dom (users (snd (Site.handle settings now r w))) = dom (users w).
Proof.
  intros K.
  destruct (handle_effect now r w K) as [E | (e & u & u' & _ & Hu & _ & He & E)].
  - split; [|now rewrite E]. intros key row. rewrite E. apply K.
  - split.
    + intros key row. rewrite E.
      destruct (decide (e = key)) as [<-|Hne].
      * rewrite lookup_insert_eq. congruence.
      * rewrite lookup_insert_ne by exact Hne. apply K.
    + rewrite E. apply dom_insert_lookup_L. eauto.
Qed.

Lemma handle_verified_row (now : datetime) (r : Site.Request) (w : World)
    (key : string) (row : User) :
  Site.keyed_by_email w ->
  users w !! key = Some row ->
  is_email_verified row = true ->
  users (snd (Site.handle settings now r w)) !! key = Some row.
Proof.
  intros K Hrow Hv.
  destruct (handle_effect now r w K) as [E | (e & u & u' & _ & Hu & Hf & _ & E)];
    rewrite E; [exact Hrow|].
  destruct (decide (e = key)) as [<-|Hne]; [congruence|].
  now rewrite lookup_insert_ne.
Qed.

End Effects.

(** X4.  A request touches no row but the one stored under the e-mail it
    names: in a table keyed by e-mail, the row under every other key is
    the same before and after, for every kind of request. *)
Theorem request_leaves_other_rows
    (settings : Settings) (now : datetime) (r : Site.Request) (w : World)
    (key : string) :
  Site.keyed_by_email w ->
  Site.addressed r <> Some key ->
  users (snd (Site.handle settings now r w)) !! key = users w !! key.
Proof.
  intros K Hne.
  destruct (handle_effect settings now r w K) as [E | (e & u & u' & Ha & _ & _ & _ & E)];
    rewrite E; [reflexivity|].
  apply lookup_insert_ne. congruence.
Qed.

(** X5.  No sequence of requests adds or removes a user: the set of
    stored e-mails is the same afterwards, and every row is still stored
    under its own e-mail. *)
Theorem requests_keep_the_users
    (settings : Settings) (requests : list (datetime * Site.Request)) (w : World) :
  Site.keyed_by_email w ->
  Site.keyed_by_email (snd (Site.serve settings requests w)) /\
  dom (users (snd (Site.serve settings requests w))) = dom (users w).
Proof.
  revert w. induction requests as [|[now r] rest IH]; intros w K; [split; auto|].
  cbn [Site.serve]. unfold bind.
  destruct (handle_keeps_keys settings now r w K) as [K1 D1].
  destruct (Site.handle settings now r w) as [[] w1]; cbn [snd] in *.
  destruct (IH w1 K1) as [K2 D2]. split; [exact K2 | congruence].
Qed.

(** X6.  A verified row is frozen: whatever requests follow, and whatever
    they carry, the row of a verified user is stored unchanged, flag,
    code columns and time stamp included. *)
Theorem verified_row_is_frozen
    (settings : Settings) (requests : list (datetime * Site.Request)) (w : World)
    (key : string) (row : User) :
  Site.keyed_by_email w ->
  users w !! key = Some row ->
  is_email_verified row = true ->
  users (snd (Site.serve settings requests w)) !! key = Some row.
Proof.
  revert w. induction requests as [|[now r] rest IH]; intros w K Hrow Hv;
    [exact Hrow|].
  cbn [Site.serve]. unfold bind.
  destruct (handle_keeps_keys settings now r w K) as [K1 _].
  pose proof (handle_verified_row settings now r w key row K Hrow Hv) as H1.
  destruct (Site.handle settings now r w) as [[] w1]; cbn [snd] in *.
  now apply IH.
Qed.

Lemma example_world_keyed (g : Random) : Site.keyed_by_email (Examples.world g).
Proof.
  intros key row H. unfold Examples.world in H; cbn [users] in H.
  apply lookup_insert_Some in H as [[<- <-] | [_ H]]; [reflexivity|].
  apply lookup_singleton_Some in H as [<- <-]. reflexivity.
Qed.

Lemma request_leaves_other_rows_witness :
  let w := Examples.world Examples.tape_042917 in
  let r := Site.DebugDirectVerify
             {| payload_email := Some "alice@example.com"; payload_code := None |} in
  users (snd (Site.handle no_settings 1000 r w)) !! "bob@example.com"
  = users w !! "bob@example.com".
Proof.
  apply (request_leaves_other_rows no_settings 1000
           (Site.DebugDirectVerify
              {| payload_email := Some "alice@example.com"; payload_code := None |})
           (Examples.world Examples.tape_042917) "bob@example.com").
  - apply example_world_keyed.
  - discriminate.
Defined.

Lemma requests_keep_the_users_witness :
  let w := Examples.world Examples.tape_042917 in
  let requests :=
    [(1000, Site.ResendVerification None
              {| payload_email := Some "alice@example.com"; payload_code := None |});
     (2000, Site.VerifyEmail
              {| payload_email := Some "alice@example.com";
                 payload_code := Some "042917" |});
     (3000, Site.VerifyUserCommand "nobody@example.com")] in
  Site.keyed_by_email (snd (Site.serve no_settings requests w)) /\
  dom (users (snd (Site.serve no_settings requests w))) = dom (users w).
Proof.
  apply (requests_keep_the_users no_settings _ (Examples.world Examples.tape_042917)).
  apply example_world_keyed.
Defined.

Lemma verified_row_is_frozen_witness :
  let w := Examples.world Examples.tape_042917 in
  let requests :=
    [(1000, Site.ResendVerification None
              {| payload_email := Some "bob@example.com"; payload_code := None |});
     (2000, Site.VerifyCode
              (Some {| payload_email := Some "bob@example.com";
                       payload_code := Some "000000" |}));
     (3000, Site.DebugGetVerificationCode true
              {| payload_email := Some "bob@example.com"; payload_code := None |})] in
  users (snd (Site.serve no_settings requests w)) !! "bob@example.com"
  = Some Examples.verified_bob.
Proof.
  apply (verified_row_is_frozen no_settings _ (Examples.world Examples.tape_042917)
           "bob@example.com" Examples.verified_bob).
  - apply example_world_keyed.
  - reflexivity.
  - reflexivity.
Defined.

(** ** Requests that fail, and requests that follow one another *)

Section RequestFlow.

Variable settings : Settings.

Lemma resend_user_unverified
    (now : datetime) (mail : MailOutcome) (u : User) (w : World) :
  is_email_verified u = false ->
  snd (fst (Views.resend_verification_user settings now mail u w))
  = snd (fst (Views.issue settings now u None w)) /\
  snd (Views.resend_verification_user settings now mail u w)
  = snd (Views.issue settings now u None w).
Proof.
  intros H. unfold Views.resend_verification_user. rewrite H. unfold bind.
  destruct (Views.issue settings now u None w) as [[c u'] w']; cbn [fst snd].
  destruct mail; [split; reflexivity|].
  destruct (EMAIL_VERIFICATION_TIMEOUT settings); split; reflexivity.
Qed.

Lemma issue_row (now : datetime) (u : User) (length : option Z) (w : World) :
  users (snd (Views.issue settings now u length w)) !! email u
  = Some (snd (fst (Views.issue settings now u length w))).
Proof.
  unfold Views.issue, bind. rewrite utils_generate_spec.
  unfold set_verification_code, save, bind, write_row, ret; cbn.
  apply lookup_insert_eq.
Qed.

End RequestFlow.

(** X7.  A verification request that is answered with an error has done
    nothing: whenever [verify_email] or [verify_code] reports an error
    (status 4xx, an ['error'] entry or ['success': False]), the world it
    leaves is the world it found. *)
Theorem failed_verification_changes_nothing
    (settings : Settings) (now : datetime)
    (request : Payload) (body : option Payload) (w : World) :
  (is_error (fst (Views.verify_email settings now request w)) = true ->
   snd (Views.verify_email settings now request w) = w) /\
  (is_error (fst (VerificationEmail.verify_code settings now body w)) = true ->
   snd (VerificationEmail.verify_code settings now body w) = w).
Proof.
  split.
  - destruct request as [pe pc]. unfold Views.verify_email;
      cbn [payload_email payload_code].
    destruct pe as [e|]; [|reflexivity].
    destruct pc as [c|]; [|reflexivity].
    destruct (String.eqb e ""); [reflexivity|].
    destruct (String.eqb c ""); [reflexivity|]. cbn [orb].
    unfold bind, objects_get.
    destruct (users w !! e) as [u|]; [|reflexivity].
    destruct (is_email_verified u) eqn:Hv.
    + rewrite (verify_email_user_verified settings now u c w Hv). reflexivity.
    + destruct (is_verification_code_valid settings now u c) eqn:V.
      * unfold Views.verify_email_user. rewrite Hv, V.
        unfold clear_verification_code, save, bind, write_row, ret; cbn.
        discriminate.
      * rewrite (verify_email_user_invalid settings now u c w Hv V). reflexivity.
  - destruct body as [[pe pc]|]; [|reflexivity].
    unfold VerificationEmail.verify_code; cbn [payload_email payload_code].
    destruct pe as [e|]; [|reflexivity].
    destruct (String.eqb e ""); [reflexivity|].
    destruct pc as [c|]; [|reflexivity].
    destruct (String.eqb c ""); [reflexivity|].
    unfold bind, objects_get.
    destruct (users w !! e) as [u|]; [|reflexivity].
    destruct (is_email_verified u) eqn:Hv.
    + rewrite (verify_code_user_verified settings now u c w Hv). reflexivity.
    + destruct (is_verification_code_valid settings now u c) eqn:V.
      * unfold VerificationEmail.verify_code_user, is_verified, verify_code.
        rewrite Hv, V. unfold save, bind, write_row, ret; cbn.
        discriminate.
      * rewrite (verify_code_user_invalid settings now u c w Hv V). reflexivity.
Qed.

Lemma failed_verification_changes_nothing_witness :
  let w := Examples.world Examples.tape_042917 in
  let request := {| payload_email := Some "alice@example.com";
                    payload_code := Some "111111" |} in
  snd (Views.verify_email no_settings 1000 request w) = w /\
  snd (VerificationEmail.verify_code no_settings 1000 (Some request) w) = w.
Proof.
  destruct (failed_verification_changes_nothing no_settings 1000
              {| payload_email := Some "alice@example.com";
                 payload_code := Some "111111" |}
              (Some {| payload_email := Some "alice@example.com";
                       payload_code := Some "111111" |})
              (Examples.world Examples.tape_042917)) as [H1 H2].
  split; [apply H1 | apply H2]; reflexivity.
Defined.

(** X8.  [resend_verification] stores the new code before it sends the
    mail: when the mail cannot be sent the answer is 500, and yet the row
    already holds the code just drawn, stamped with the instant of the
    request; a previous code that differs from it no longer passes. *)
Theorem resend_stores_code_before_mailing
    (settings : Settings) (now : datetime) (failure : string)
    (e : string) (code : option string) (u : User) (w : World) :
  e <> "" ->
  users w !! e = Some u ->
  email u = e ->
  is_email_verified u = false ->
  let r := Views.resend_verification settings now (Some failure)
             {| payload_email := Some e; payload_code := code |} w in
  let drawn := fst (Utils.generate_verification_code settings None w) in
  status (fst r) = 500 /\
  exists u' : User,
    users (snd r) !! e = Some u' /\
    verification_code u' = Some drawn /\
    verification_code_created u' = Some now /\
    forall (previous : string) (later : datetime),
      previous <> drawn ->
      is_verification_code_valid settings later u' previous = false.
Proof.
  intros He Hu Hmail Hv r drawn. subst r.
  unfold Views.resend_verification; cbn [payload_email].
  apply String.eqb_neq in He. rewrite He.
  unfold bind, objects_get. rewrite Hu.
  destruct (resend_user_unverified settings now (Some failure) u w Hv) as [E1 E2].
  destruct (issue_fields settings now u None w) as (Hc & Ht & _ & Hg).
  pose proof (issue_row settings now u None w) as Hrow.
  assert (Hs : status (fst (fst (Views.resend_verification_user settings now
                                   (Some failure) u w))) = 500).
  { unfold Views.resend_verification_user. rewrite Hv. unfold bind.
    destruct (Views.issue settings now u None w) as [[? ?] ?]. reflexivity. }
  destruct (Views.resend_verification_user settings now (Some failure) u w)
    as [[resp u1] w1]; cbn [fst snd] in *.
  split; [exact Hs|].
  exists u1. subst u1 w1. unfold ret; cbn [snd].
  rewrite <- Hmail, Hrow. fold drawn in Hg. rewrite <- Hg.
  repeat split; try assumption.
  intros previous later Hne. apply not_true_is_false. rewrite is_valid_iff.
  intros (t & H & _). congruence.
Qed.

Lemma resend_stores_code_before_mailing_witness :
  let w := Examples.world Examples.tape_042917 in
  let r := Views.resend_verification no_settings 1000 (Some "connection refused")
             {| payload_email := Some "alice@example.com"; payload_code := None |} w in
  status (fst r) = 500 /\
  exists u' : User,
    users (snd r) !! "alice@example.com" = Some u' /\
    verification_code u' = Some (fst (Utils.generate_verification_code no_settings None w)) /\
    verification_code_created u' = Some 1000 /\
    forall (previous : string) (later : datetime),
      previous <> fst (Utils.generate_verification_code no_settings None w) ->
      is_verification_code_valid no_settings later u' previous = false.
Proof.
  apply (resend_stores_code_before_mailing no_settings 1000 "connection refused"
           "alice@example.com" None Examples.alice
           (Examples.world Examples.tape_042917)).
  - discriminate.
  - reflexivity.
  - reflexivity.
  - reflexivity.
Defined.

(** X9.  A resent code works: after [resend_verification] for a stored,
    unverified user (whether or not the mail could be sent), a
    [verify_email] request with the code just drawn, no later than the
    timeout, is answered with success, and the stored row is then
    verified with both code columns cleared. *)
Theorem resend_then_verify_email
    (settings : Settings) (t0 t1 : datetime) (mail : MailOutcome)
    (e : string) (u : User) (w : World) :
  e <> "" ->
  users w !! e = Some u ->
  email u = e ->
  is_email_verified u = false ->
  let drawn := fst (Utils.generate_verification_code settings None w) in
  let w1 := snd (Views.resend_verification settings t0 mail
                   {| payload_email := Some e; payload_code := None |} w) in
  let r := Views.verify_email settings t1
             {| payload_email := Some e; payload_code := Some drawn |} w1 in
  drawn <> "" ->
  t1 - t0 <= seconds (getattr (EMAIL_VERIFICATION_TIMEOUT settings) 3600) ->
  result_kind (fst r) = Some Verified /\
  exists u' : User,
    users (snd r) !! e = Some u' /\
    is_email_verified u' = true /\
    verification_code u' = None /\
    verification_code_created u' = None.
Proof.
  intros He Hu Hmail Hv drawn w1 r Hne Hle.
  destruct (resend_user_unverified settings t0 mail u w Hv) as [_ E2].
  destruct (issue_fields settings t0 u None w) as (Hc & Ht & Hver & Hg).
  pose proof (issue_row settings t0 u None w) as Hrow.
  assert (Ew1 : w1 = snd (Views.issue settings t0 u None w)).
  { subst w1. rewrite (resend_verification_fetched settings t0 mail e u w He Hu).
    exact E2. }
  set (u1 := snd (fst (Views.issue settings t0 u None w))) in *.
  fold drawn in Hg. rewrite Hg in Hc. rewrite Hv in Hver.
  assert (Hu1 : users w1 !! e = Some u1) by (rewrite Ew1, <- Hmail; exact Hrow).
  assert (V : is_verification_code_valid settings t1 u1 drawn = true)
    by (apply (held_code_valid_iff settings t1 t0 u1 drawn Hc Ht Hne); exact Hle).
  destruct (verify_email_user_valid settings t1 u1 drawn w1 Hver V)
    as (R & _ & H1 & H2 & H3 & Hm & H4).
  subst r. rewrite (verify_email_fetched settings t1 e drawn u1 w1 He Hne Hu1).
  cbn [fst snd]. split; [exact R|].
  exists (snd (fst (Views.verify_email_user settings t1 u1 drawn w1))).
  repeat split; try assumption.
  assert (Em : email u1 = e).
  { subst u1. unfold Views.issue, bind. rewrite utils_generate_spec. exact Hmail. }
  now rewrite <- Em.
Qed.

Lemma resend_then_verify_email_witness :
  let w := Examples.world Examples.tape_042917 in
  let w1 := snd (Views.resend_verification no_settings 1000 (Some "no route")
                   {| payload_email := Some "alice@example.com";
                      payload_code := None |} w) in
  let r := Views.verify_email no_settings 2000
             {| payload_email := Some "alice@example.com";
                payload_code := Some (fst (Utils.generate_verification_code
                                             no_settings None w)) |} w1 in
  result_kind (fst r) = Some Verified /\
  exists u' : User,
    users (snd r) !! "alice@example.com" = Some u' /\
    is_email_verified u' = true /\
    verification_code u' = None /\
    verification_code_created u' = None.
Proof.
  apply (resend_then_verify_email no_settings 1000 2000 (Some "no route")
           "alice@example.com" Examples.alice (Examples.world Examples.tape_042917)).
  - discriminate.
  - reflexivity.
  - reflexivity.
  - reflexivity.
  - vm_compute. discriminate.
  - vm_compute. discriminate.
Defined.

(** With one instant for all its readings of the clock, a fragment of
    [Readings] is the fragment of [Views] or [VerificationEmail]. *)
Lemma readings_at_one_instant
    (settings : Settings) (now : datetime) (u : User) (c : string) :
  Readings.verify_email_user settings now now now u c
  = Views.verify_email_user settings now u c /\
  Readings.verify_code_user settings now now u c
  = VerificationEmail.verify_code_user settings now u c /\
  Readings.debug_direct_verify_user now now u
  = Views.debug_direct_verify_user now u.
Proof. repeat split. Qed.

(** X10.  The four ways to verify agree up to the time stamp: for an
    unverified user whose code passes, each of [verify_email],
    [verify_code] and [debug_direct_verify] leaves the object and the
    world that the [verify_user] command leaves when its one [save]
    reads the clock as the last [save] of that view does.  The first
    [save] of [verify_email] and of [debug_direct_verify] is overwritten
    by the second, whatever the clock said in between, so the four
    results differ in [updated_at] and in nothing else. *)
Theorem verification_paths_agree
    (settings : Settings)
    (checked saved resaved checked' saved' saved'' resaved'' : datetime)
    (u : User) (c : string) (w : World) :
  is_email_verified u = false ->
  is_verification_code_valid settings checked u c = true ->
  is_verification_code_valid settings checked' u c = true ->
  let by_email := Readings.verify_email_user settings checked saved resaved u c w in
  let by_code := Readings.verify_code_user settings checked' saved' u c w in
  let by_debug := Readings.debug_direct_verify_user saved'' resaved'' u w in
  (snd (fst by_email), snd by_email) = VerifyUserCommand.handle_user resaved u w /\
  (snd (fst by_code), snd by_code) = VerifyUserCommand.handle_user saved' u w /\
  (snd (fst by_debug), snd by_debug) = VerifyUserCommand.handle_user resaved'' u w.
Proof.
  intros Hv V V'.
  unfold VerifyUserCommand.handle_user, Readings.verify_email_user,
    Readings.verify_code_user, Readings.debug_direct_verify_user,
    is_verified, verify_code.
  rewrite Hv, V, V'.
  unfold clear_verification_code, save, bind, write_row, ret; cbn.
  rewrite !insert_insert_eq.
  destruct (String.eqb (username u) "") eqn:Eu,
           (String.eqb (email u) "") eqn:Ee; cbn; rewrite ?Eu, ?Ee; cbn;
    repeat split.
Qed.

Lemma verification_paths_agree_witness :
  let issued := Views.issue no_settings 1000 Examples.alice None
                  (Examples.world Examples.tape_042917) in
  let u := snd (fst issued) in
  let w := snd issued in
  let by_email := Readings.verify_email_user no_settings 2000 2010 2020 u "042917" w in
  let by_code := Readings.verify_code_user no_settings 3000 3010 u "042917" w in
  let by_debug := Readings.debug_direct_verify_user 4000 4010 u w in
  (snd (fst by_email), snd by_email) = VerifyUserCommand.handle_user 2020 u w /\
  (snd (fst by_code), snd by_code) = VerifyUserCommand.handle_user 3010 u w /\
  (snd (fst by_debug), snd by_debug) = VerifyUserCommand.handle_user 4010 u w.
Proof.
  apply (verification_paths_agree no_settings 2000 2010 2020 3000 3010 4000 4010
           (snd (fst (Views.issue no_settings 1000 Examples.alice None
                        (Examples.world Examples.tape_042917))))
           "042917"); reflexivity.
Defined.

(** ** The debug view and the command that show a code *)

(** X11.  What [debug_get_verification_code] hands out is what is stored:
    whenever it answers with a code, the row under the requested e-mail
    holds exactly that code afterwards, and [expires_at] is that row's
    time stamp plus the configured timeout. *)
Theorem debug_code_is_the_stored_code
    (debug : bool) (settings : Settings) (now : datetime) (request : Payload)
    (w : World) (e code : string) (expires_at : datetime) :
  Site.keyed_by_email w ->
  fst (DebugViews.debug_get_verification_code debug settings now request w)
  = DebugViews.CodeFor e code expires_at ->
  exists (u' : User) (created timeout : Z),
    users (snd (DebugViews.debug_get_verification_code debug settings now request w))
      !! e = Some u' /\
    verification_code u' = Some code /\
    verification_code_created u' = Some created /\
    EMAIL_VERIFICATION_TIMEOUT settings = Some timeout /\
    expires_at = created + seconds timeout.
Proof.
  intros K. destruct request as [pe pc].
  unfold DebugViews.debug_get_verification_code; cbn [payload_email].
  destruct debug; cbn [negb]; [|discriminate].
  destruct pe as [a|]; [|discriminate].
  destruct (String.eqb a ""); [discriminate|].
  unfold bind, objects_get.
  destruct (users w !! a) as [u|] eqn:Hu; [|discriminate].
  pose proof (K a u Hu) as Ka.
  destruct (is_email_verified u); [discriminate|].
  destruct (not_str (verification_code u) || not_datetime (verification_code_created u))
    eqn:Hheld.
  - destruct (issue_fields settings now u None w) as (Hc & Ht & _ & _).
    pose proof (issue_row settings now u None w) as Hrow.
    destruct (Views.issue settings now u None w) as [[c u1] w1]; cbn [fst snd] in *.
    rewrite Ht. destruct (EMAIL_VERIFICATION_TIMEOUT settings) as [timeout|];
      [|discriminate].
    unfold ret; cbn [fst snd]. intros [= <- <- <-].
    exists u1, now, timeout. rewrite <- Ka. auto.
  - apply orb_false_iff in Hheld as [Hs Hd]. unfold ret; cbn [fst snd].
    destruct (verification_code u) as [c|] eqn:Hc; [|discriminate Hs].
    destruct (verification_code_created u) as [t|] eqn:Ht; [|discriminate Hd].
    destruct (EMAIL_VERIFICATION_TIMEOUT settings) as [timeout|]; [|discriminate].
    cbn [getattr]. intros [= <- <- <-].
    exists u, t, timeout. auto.
Qed.

Lemma debug_code_is_the_stored_code_witness :
  let settings := {| EMAIL_VERIFICATION_TIMEOUT := Some 7200;
                     VERIFICATION_CODE_LENGTH := None |} in
  let request := {| payload_email := Some "alice@example.com";
                    payload_code := None |} in
  let w := Examples.world Examples.tape_042917 in
  exists (u' : User) (created timeout : Z),
    users (snd (DebugViews.debug_get_verification_code true settings 100 request w))
      !! "alice@example.com" = Some u' /\
    verification_code u' = Some "042917" /\
    verification_code_created u' = Some created /\
    EMAIL_VERIFICATION_TIMEOUT settings = Some timeout /\
    7200000100 = created + seconds timeout.
Proof.
  apply (debug_code_is_the_stored_code true
           {| EMAIL_VERIFICATION_TIMEOUT := Some 7200;
              VERIFICATION_CODE_LENGTH := None |} 100
           {| payload_email := Some "alice@example.com"; payload_code := None |}
           (Examples.world Examples.tape_042917)).
  - apply example_world_keyed.
  - reflexivity.
Defined.

(** *** The comparison with the timeout, as the float makes it *)

Section Rounding.

Import Binary64.

Lemma scaled_down (n d e : Z) :
  fst (scaled n d (e - 1)) * snd (scaled n d e)
  = 2 * (fst (scaled n d e) * snd (scaled n d (e - 1))).
Proof.
  unfold scaled; cbn [fst snd].
  destruct (Z.le_gt_cases e 0) as [H|H].
  - rewrite (Z.max_l 0 e), (Z.max_l 0 (e - 1)) by lia.
    rewrite (Z.max_r 0 (- e)), (Z.max_r 0 (- (e - 1))) by lia.
    replace (- (e - 1)) with (Z.succ (- e)) by lia.
    rewrite Z.pow_succ_r by lia. cbn. lia.
  - rewrite (Z.max_r 0 e), (Z.max_r 0 (e - 1)) by lia.
    rewrite (Z.max_l 0 (- e)), (Z.max_l 0 (- (e - 1))) by lia.
    replace e with (Z.succ (e - 1)) at 1 by lia.
    rewrite Z.pow_succ_r by lia. cbn. lia.
Qed.

Lemma scaled_pos (n d e : Z) :
  0 < n -> 0 < d -> 0 < fst (scaled n d e) /\ 0 < snd (scaled n d e).
Proof.
  intros Hn Hd. unfold scaled; cbn [fst snd].
  assert (0 < 2 ^ Z.max 0 (- e)) by (apply Z.pow_pos_nonneg; lia).
  assert (0 < 2 ^ Z.max 0 e) by (apply Z.pow_pos_nonneg; lia).
  split; nia.
Qed.

(** At the first scale the quotient lies between [2 ^ 51] and [2 ^ 53]. *)
Lemma scaled_first (n d : Z) :
  0 < n -> 0 < d ->
  let e0 := Z.log2 n - Z.log2 d - 52 in
  2 ^ 51 * snd (scaled n d e0) <= fst (scaled n d e0) /\
  fst (scaled n d e0) < 2 ^ 53 * snd (scaled n d e0).
Proof.
  intros Hn Hd e0.
  destruct (Z.log2_spec n Hn) as [Ln Un], (Z.log2_spec d Hd) as [Ld Ud].
  pose proof (Z.log2_nonneg n) as Nn. pose proof (Z.log2_nonneg d) as Nd.
  rewrite Z.pow_succ_r in Un, Ud by assumption.
  unfold scaled; cbn [fst snd].
  destruct (Z.le_gt_cases 0 e0) as [H|H].
  - rewrite (Z.max_r 0 e0), (Z.max_l 0 (- e0)) by lia.
    assert (E : Z.log2 n = Z.log2 d + 52 + e0) by (unfold e0; lia).
    rewrite E in Ln, Un. rewrite !Z.pow_add_r in Ln, Un by lia.
    assert (0 < 2 ^ e0) by (apply Z.pow_pos_nonneg; lia).
    assert (0 < 2 ^ Z.log2 d) by (apply Z.pow_pos_nonneg; lia).
    change (2 ^ 52) with 4503599627370496 in *.
    change (2 ^ 51) with 2251799813685248.
    change (2 ^ 53) with 9007199254740992.
    cbn [Z.pow Z.pow_pos Pos.iter Z.mul Pos.mul] in *. split; nia.
  - rewrite (Z.max_l 0 e0), (Z.max_r 0 (- e0)) by lia.
    assert (E : Z.log2 d + 52 = Z.log2 n + - e0) by (unfold e0; lia).
    assert (P : 2 ^ Z.log2 d * 2 ^ 52 = 2 ^ Z.log2 n * 2 ^ (- e0))
      by (rewrite <- !Z.pow_add_r by lia; now rewrite E).
    assert (0 < 2 ^ (- e0)) by (apply Z.pow_pos_nonneg; lia).
    assert (0 < 2 ^ Z.log2 d) by (apply Z.pow_pos_nonneg; lia).
    assert (0 < 2 ^ Z.log2 n) by (apply Z.pow_pos_nonneg; lia).
    change (2 ^ 52) with 4503599627370496 in *.
    change (2 ^ 51) with 2251799813685248.
    change (2 ^ 53) with 9007199254740992.
    cbn [Z.pow Z.pow_pos Pos.iter Z.mul Pos.mul] in *. split; nia.
Qed.

(** What [divide_pos] computes: the scaled quotient [q] has exactly 53
    bits, and the mantissa is [q] or [q + 1] as the remainder [r] says. *)
Lemma divide_pos_spec (n d : Z) :
  0 < n -> 0 < d ->
  exists e q r : Z,
    fst (scaled n d e) = snd (scaled n d e) * q + r /\
    0 <= r < snd (scaled n d e) /\
    2 ^ 52 <= q < 2 ^ 53 /\
    divide_pos n d
    = {| mant := if (snd (scaled n d e) <? 2 * r)
                    || ((snd (scaled n d e) =? 2 * r) && Z.odd q)
                 then q + 1 else q;
         expo := e |}.
Proof.
  intros Hn Hd.
  destruct (scaled_first n d Hn Hd) as [Lo Hi].
  set (e0 := Z.log2 n - Z.log2 d - 52) in *.
  unfold divide_pos. fold e0.
  set (e := if fst (scaled n d e0) / snd (scaled n d e0) <? 2 ^ 52
            then e0 - 1 else e0).
  destruct (scaled_pos n d e Hn Hd) as [Pn Pd].
  exists e, (fst (scaled n d e) / snd (scaled n d e)),
    (fst (scaled n d e) mod snd (scaled n d e)).
  split; [apply Z.div_mod; lia|].
  split; [apply Z.mod_pos_bound; lia|].
  split; [|reflexivity].
  destruct (scaled_pos n d e0 Hn Hd) as [Pn0 Pd0].
  subst e.
  destruct (Z.ltb_spec (fst (scaled n d e0) / snd (scaled n d e0)) (2 ^ 52)) as [L|L].
  - pose proof (scaled_down n d e0) as D.
    destruct (scaled_pos n d (e0 - 1) Hn Hd) as [Pn1 Pd1].
    pose proof (Z.div_mod (fst (scaled n d e0)) (snd (scaled n d e0))
                  ltac:(lia)) as DM.
    pose proof (Z.mod_pos_bound (fst (scaled n d e0)) (snd (scaled n d e0))
                  ltac:(lia)) as MB.
    assert (L' : fst (scaled n d e0) < 2 ^ 52 * snd (scaled n d e0)) by nia.
    clear DM MB L.
    split.
    + apply Z.div_le_lower_bound; [lia|].
      change (2 ^ 52) with (2 * 2 ^ 51). nia.
    + apply Z.div_lt_upper_bound; [lia|].
      change (2 ^ 53) with (2 * 2 ^ 52). nia.
  - split; [exact L|]. apply Z.div_lt_upper_bound; lia.
Qed.

(** A scale is a power of two: at most [2 ^ 18], or at least [2 ^ 19]. *)
Lemma scale_cases (k : Z) : 0 <= k -> 2 ^ k <= 2 ^ 18 \/ 2 ^ 19 <= 2 ^ k.
Proof.
  intros Hk. destruct (Z.le_gt_cases k 18) as [H|H].
  - left. apply Z.pow_le_mono_r; lia.
  - right. apply Z.pow_le_mono_r; lia.
Qed.

(** Below [2 ^ 34] seconds a microsecond is more than half the distance
    between two floats, so rounding the quotient by [10 ** 6] never moves
    it across, or onto, a whole number of seconds. *)
Lemma divide_pos_compare (n T : Z) :
  0 < n -> 0 <= T < 2 ^ 34 ->
  compare_int (divide_pos n 1000000) T = (n ?= T * 1000000).
Proof.
  intros Hn [HT0 HT].
  destruct (divide_pos_spec n 1000000 Hn ltac:(lia)) as (e & q & r & E & R & Q & ->).
  unfold compare_int; cbn [mant expo]. unfold scaled in *; cbn [fst snd] in *.
  change (2 ^ 52) with 4503599627370496 in Q.
  change (2 ^ 53) with 9007199254740992 in Q.
  change (2 ^ 34) with 17179869184 in HT.
  destruct (Z.le_gt_cases 0 e) as [He|He].
  - rewrite (Z.max_r 0 e), (Z.max_l 0 (- e)) in * by lia.
    change (2 ^ 0) with 1 in *. rewrite Z.mul_1_r in *.
    assert (P : 0 < 2 ^ e) by (apply Z.pow_pos_nonneg; lia).
    set (s := 2 ^ e) in *.
    transitivity Gt; [|symmetry]; apply Z.compare_gt_iff.
    + destruct ((1000000 * s <? 2 * r) || ((1000000 * s =? 2 * r) && Z.odd q)); nia.
    + nia.
  - rewrite (Z.max_l 0 e), (Z.max_r 0 (- e)) in * by lia.
    change (2 ^ 0) with 1 in *. rewrite !Z.mul_1_r in *.
    assert (P : 0 < 2 ^ (- e)) by (apply Z.pow_pos_nonneg; lia).
    destruct (scale_cases (- e) ltac:(lia)) as [S|S];
      change (2 ^ 18) with 262144 in S; change (2 ^ 19) with 524288 in S;
      set (p := 2 ^ (- e)) in *.
    + transitivity Gt; [|symmetry]; apply Z.compare_gt_iff.
      * destruct ((1000000 <? 2 * r) || ((1000000 =? 2 * r) && Z.odd q)); nia.
      * nia.
    + destruct (Z.compare_spec n (T * 1000000)) as [C|C|C].
      * assert (HK : n * p = T * p * 1000000) by nia.
        set (K := T * p) in *. set (np := n * p) in *.
        apply Z.compare_eq_iff.
        destruct (Z.ltb_spec 1000000 (2 * r)) as [L|L]; cbn [orb]; [lia|].
        destruct (Z.eqb_spec 1000000 (2 * r)) as [L1|L1]; cbn [andb]; [|lia].
        destruct (Z.odd q); lia.
      * assert (HK : n * p <= T * p * 1000000 - p) by nia.
        set (K := T * p) in *. set (np := n * p) in *.
        apply Z.compare_lt_iff.
        destruct (Z.ltb_spec 1000000 (2 * r)) as [L|L]; cbn [orb]; [lia|].
        destruct (Z.eqb_spec 1000000 (2 * r)) as [L1|L1]; cbn [andb]; [|lia].
        destruct (Z.odd q); lia.
      * assert (HK : T * p * 1000000 + p <= n * p) by nia.
        set (K := T * p) in *. set (np := n * p) in *.
        apply Z.compare_gt_iff.
        destruct (Z.ltb_spec 1000000 (2 * r)) as [L|L]; cbn [orb]; [lia|].
        destruct (Z.eqb_spec 1000000 (2 * r)) as [L1|L1]; cbn [andb]; [|lia].
        destruct (Z.odd q); lia.
Qed.

(** For a timeout from 0 up to [2 ^ 34] seconds, comparing the float
    [delta.total_seconds()] with the timeout is comparing the two
    microsecond counts. *)
Lemma total_seconds_compare (delta : timedelta) (T : Z) :
  0 <= T < 2 ^ 34 ->
  compare_int (total_seconds delta) T = (delta ?= seconds T).
Proof.
  intros HT. unfold total_seconds, seconds. destruct delta as [|n|n].
  - unfold true_divide, compare_int; cbn [mant expo].
    change (Z.max 0 (- 0)) with 0. change (Z.max 0 0) with 0.
    change (2 ^ 0) with 1. rewrite Z.mul_1_r. cbn [Z.mul].
    destruct T; reflexivity || lia.
  - now apply divide_pos_compare.
  - unfold true_divide.
    destruct (divide_pos_spec (- Z.neg n) 1000000 ltac:(lia) ltac:(lia))
      as (e & q & r & _ & R & Q & ->).
    unfold compare_int; cbn [mant expo].
    change (2 ^ 52) with 4503599627370496 in Q.
    assert (0 < 2 ^ Z.max 0 e) by (apply Z.pow_pos_nonneg; lia).
    assert (0 < 2 ^ Z.max 0 (- e)) by (apply Z.pow_pos_nonneg; lia).
    transitivity Lt; [|symmetry]; apply Z.compare_lt_iff.
    + destruct ((snd (scaled (- Z.neg n) 1000000 e) <? 2 * r)
                || ((snd (scaled (- Z.neg n) 1000000 e) =? 2 * r) && Z.odd q)); nia.
    + lia.
Qed.

(** [total_seconds_gt], the comparison that [is_verification_code_valid]
    is modelled with, is the one the code makes on the float. *)
Lemma total_seconds_gt_is_the_float_comparison (delta : timedelta) (T : Z) :
  0 <= T < 2 ^ 34 ->
  gt_int (total_seconds delta) T = total_seconds_gt delta T.
Proof.
  intros HT. unfold gt_int, total_seconds_gt.
  rewrite (total_seconds_compare delta T HT).
  rewrite <- Z.gtb_ltb. reflexivity.
Qed.

(** Beyond the bound the two part: with a timeout of [2 ^ 34] seconds the
    float of a delta one microsecond longer is the timeout itself. *)
Example float_comparison_at_the_bound :
  let T := 2 ^ 34 in
  total_seconds_gt (seconds T + 1) T = true /\
  gt_int (total_seconds (seconds T + 1)) T = false.
Proof. vm_compute. auto. Qed.

(** Values of [total_seconds()] to set beside Python's: one microsecond
    is [0x1.0c6f7a0b5ed8dp-20], an hour and a microsecond
    [0x1.c200000218defp+11], half a second [0x1p-1], and a tie goes to
    the even mantissa. *)
Example total_seconds_samples :
  total_seconds 1 = {| mant := 4722366482869645; expo := -72 |} /\
  total_seconds 3600000001 = {| mant := 7916483722186223; expo := -41 |} /\
  total_seconds 500000 = {| mant := 4503599627370496; expo := -53 |} /\
  total_seconds (-7) = {| mant := -8264141345021879; expo := -70 |} /\
  true_divide 9007199254740993000000 1000000
  = {| mant := 4503599627370496; expo := 1 |} /\
  true_divide 9007199254740995000000 1000000
  = {| mant := 4503599627370498; expo := 1 |}.
Proof. vm_compute. auto 10. Qed.

End Rounding.

(** X24.  The float does not change the verdict: with a timeout from 0
    up to [2 ^ 34] seconds, [is_verification_code_valid] answers the
    same whether the elapsed time is compared as the float
    [total_seconds()], as the code compares it, or as the exact count of
    microseconds, for every user, instant and candidate. *)
Theorem float_does_not_change_the_verdict
    (settings : Settings) (now : datetime) (u : User) (c : string) :
  0 <= getattr (EMAIL_VERIFICATION_TIMEOUT settings) 3600 < 2 ^ 34 ->
  OnFloats.is_verification_code_valid settings now u c
  = is_verification_code_valid settings now u c.
Proof.
  intros Hbound.
  unfold OnFloats.is_verification_code_valid, is_verification_code_valid.
  destruct (not_str (verification_code u) || not_datetime (verification_code_created u));
    [reflexivity|].
  destruct (verification_code u) as [stored|]; [|reflexivity].
  destruct (verification_code_created u) as [created|]; [|reflexivity].
  cbv zeta. now rewrite (total_seconds_gt_is_the_float_comparison _ _ Hbound).
Qed.

Lemma float_does_not_change_the_verdict_witness :
  let u := snd (fst (Views.issue no_settings 1000 Examples.alice None
                       (Examples.world Examples.tape_042917))) in
  OnFloats.is_verification_code_valid no_settings (1000 + seconds 3600 + 1) u "042917"
  = is_verification_code_valid no_settings (1000 + seconds 3600 + 1) u "042917".
Proof.
  apply (float_does_not_change_the_verdict no_settings (1000 + seconds 3600 + 1)
           (snd (fst (Views.issue no_settings 1000 Examples.alice None
                        (Examples.world Examples.tape_042917))))
           "042917").
  vm_compute. split; [discriminate | reflexivity].
Defined.



(** X13.  With a timeout from 0 up to [2 ^ 34] seconds, the
    [get_verification_code] command and the validity check disagree at
    one instant only.  For a user who holds a code with its time stamp,
    the command reports the code as live exactly when the check accepts
    it and the elapsed time is not exactly the timeout; that is the one
    instant at which the float [time_passed] equals the timeout, and at
    it the command says "expired 0 seconds ago" while the code still
    verifies. *)
Theorem command_live_iff_valid_before_boundary
    (settings : Settings) (now : datetime) (u : User) (c : string) (created : Z) :
  verification_code u = Some c ->
  verification_code_created u = Some created ->
  0 <= getattr (EMAIL_VERIFICATION_TIMEOUT settings) 3600 < 2 ^ 34 ->
  let timeout := seconds (getattr (EMAIL_VERIFICATION_TIMEOUT settings) 3600) in
  ((exists s m : Z,
       Commands.report (Commands.get_verification_code_user settings now u)
       = Commands.Live c created s m)
   <-> (is_verification_code_valid settings now u c = true /\
        now - created <> timeout)) /\
  (Binary64.compare_int (Binary64.total_seconds (now - created))
     (getattr (EMAIL_VERIFICATION_TIMEOUT settings) 3600) = Eq
   <-> now - created = timeout) /\
  (c <> "" -> now - created = timeout ->
   Commands.report (Commands.get_verification_code_user settings now u)
   = Commands.Expired c created 0 /\
   is_verification_code_valid settings now u c = true).
Proof.
  intros Hc Ht Hbound timeout.
  rewrite (total_seconds_compare _ _ Hbound). fold timeout.
  rewrite Z.compare_eq_iff.
  unfold Commands.get_verification_code_user; cbn [Commands.report].
  rewrite Hc, Ht. unfold not_str. fold timeout. cbn [getattr].
  destruct (String.eqb_spec c "") as [E|E].
  - split; [|split; [tauto|]].
    + split; [intros (s & m & H); discriminate|].
      intros [V _]. apply is_valid_iff in V as (t & _ & Hne & _). contradiction.
    + intros Hne; contradiction.
  - rewrite (held_code_valid_iff settings now created u c Hc Ht E). fold timeout.
    split; [|split; [tauto|]].
    + destruct (Z.ltb_spec 0 (Z.max 0 (timeout - (now - created)))) as [L|L].
      * split; [intros _; lia | intros _; eauto].
      * split; [intros (s & m & H); discriminate | intros [H1 H2]; lia].
    + intros _ Hb. rewrite Hb, Z.sub_diag. cbn.
      split; [reflexivity | lia].
Qed.

Lemma command_live_iff_valid_before_boundary_witness :
  let u := snd (fst (Views.issue no_settings 1000 Examples.alice None
                       (Examples.world Examples.tape_042917))) in
  Commands.report (Commands.get_verification_code_user no_settings
                     (1000 + seconds 3600) u)
  = Commands.Expired "042917" 1000 0 /\
  is_verification_code_valid no_settings (1000 + seconds 3600) u "042917" = true.
Proof.
  assert (Hbound : 0 <= getattr (EMAIL_VERIFICATION_TIMEOUT no_settings) 3600 < 2 ^ 34)
    by (vm_compute; split; [discriminate | reflexivity]).
  apply (proj2 (proj2 (command_live_iff_valid_before_boundary no_settings
                         (1000 + seconds 3600)
                         (snd (fst (Views.issue no_settings 1000 Examples.alice None
                                      (Examples.world Examples.tape_042917))))
                         "042917" 1000 eq_refl eq_refl Hbound))).
  - discriminate.
  - reflexivity.
Defined.

(** ** Creating an account: [UserSerializer.create] *)

Section UsernameLoop.

Lemma username_exists_iff (name : string) (w : World) :
  fst (username_exists name w) = true <-> Serializers.username_taken w name.
Proof.
  unfold username_exists, Serializers.username_taken; cbn [fst].
  rewrite existsb_exists. split.
  - intros (row & Hin & E). apply String.eqb_eq in E.
    apply list_elem_of_In, list_elem_of_fmap in Hin as ([key row'] & -> & Hin).
    apply elem_of_map_to_list in Hin. eauto.
  - intros (key & row & Hrow & E). exists row. split; [|now apply String.eqb_eq].
    apply list_elem_of_In, list_elem_of_fmap. exists (key, row).
    split; [reflexivity | now apply elem_of_map_to_list].
Qed.

Lemma username_exists_world (name : string) (w : World) :
  snd (username_exists name w) = w.
Proof. reflexivity. Qed.

(** What the loop returns is free, and the loop only reads. *)
Lemma free_username_some (fuel : nat) (base : string) :
  forall (name : string) (counter : nat) (w : World) (found : string),
    fst (Serializers.free_username fuel base name counter w) = Some found ->
    ~ Serializers.username_taken w found /\
    (found = name \/ exists k : nat, found = base ++ pretty k) /\
    snd (Serializers.free_username fuel base name counter w) = w.
Proof.
  induction fuel as [|fuel IH]; intros name counter w found;
    cbn [Serializers.free_username]; unfold bind;
    pose proof (username_exists_iff name w) as T;
    destruct (username_exists name w) as [taken w0] eqn:E;
    assert (w0 = w) by (change w0 with (snd (taken, w0)); rewrite <- E; reflexivity);
    subst w0; cbn [fst] in T; destruct taken; cbn [fst snd ret].
  - discriminate.
  - intros [= <-]. split; [|auto]. rewrite <- T. discriminate.
  - intros H. destruct (IH _ _ _ _ H) as (F & [-> | [k ->]] & W); eauto 6.
  - intros [= <-]. split; [|auto]. rewrite <- T. discriminate.
Qed.

(** When the loop gives up, every candidate it tried is taken. *)
Lemma free_username_none (fuel : nat) (base : string) :
  forall (name : string) (counter : nat) (w : World),
    fst (Serializers.free_username fuel base name counter w) = None ->
    forall i : nat, (i < fuel)%nat ->
      Serializers.username_taken w (base ++ pretty (counter + i)%nat).
Proof.
  induction fuel as [|fuel IH]; intros name counter w H i Hi; [lia|].
  cbn [Serializers.free_username] in H. unfold bind in H.
  pose proof (username_exists_iff (base ++ pretty counter) w) as T.
  destruct (username_exists name w) as [taken w0] eqn:E.
  assert (w0 = w) by (change w0 with (snd (taken, w0)); rewrite <- E; reflexivity).
  subst w0. destruct taken; [|discriminate H].
  destruct i as [|i].
  - rewrite Nat.add_0_r.
    destruct fuel as [|fuel']; cbn [Serializers.free_username] in H; unfold bind in H;
      destruct (username_exists (base ++ pretty counter) w)
        as [taken w0] eqn:E'; cbn [fst] in T;
      destruct taken; try discriminate H; now apply T.
  - replace (counter + S i)%nat with (S counter + i)%nat by lia.
    apply (IH _ _ _ H). lia.
Qed.

(** There are never more candidates taken than there are users. *)
Lemma taken_candidates_bound (w : World) (base : string) (counter n : nat) :
  (forall i : nat, (i < n)%nat ->
     Serializers.username_taken w (base ++ pretty (counter + i)%nat)) ->
  (n <= size (users w))%nat.
Proof.
  intros H.
  set (candidates := (fun i : nat => base ++ pretty (counter + i)%nat) <$> seq 0 n).
  set (names := username <$> (map_to_list (users w)).*2).
  assert (ND : NoDup candidates).
  { apply NoDup_fmap_2_strong; [|apply NoDup_seq].
    intros i j _ _ Eq. apply (inj (String.app base)) in Eq.
    apply (inj pretty) in Eq. lia. }
  assert (Sub : forall x, x ∈ candidates -> x ∈ names).
  { intros x Hx. apply list_elem_of_fmap in Hx as (i & -> & Hi).
    apply elem_of_seq in Hi. destruct (H i ltac:(lia)) as (key & row & Hrow & E).
    apply list_elem_of_fmap. exists row. split; [now rewrite E|].
    apply list_elem_of_fmap. exists (key, row).
    split; [reflexivity | now apply elem_of_map_to_list]. }
  pose proof (submseteq_length _ _ (NoDup_submseteq _ _ ND Sub)) as L.
  unfold candidates, names in L.
  rewrite !length_fmap, length_seq, length_map_to_list in L. exact L.
Qed.

Lemma free_username_ends (fuel : nat) (base name : string) (counter : nat) (w : World) :
  (size (users w) < fuel)%nat ->
  fst (Serializers.free_username fuel base name counter w) <> None.
Proof.
  intros Hfuel Hnone.
  pose proof (taken_candidates_bound w base counter fuel
                (free_username_none fuel base name counter w Hnone)).
  lia.
Qed.

End UsernameLoop.

Section Create.

Variable normalize_email : string -> string.

Lemma create_user_some
    (now : datetime) (mail name : string) (verified : bool) (w : World) (u : User) :
  fst (create_user normalize_email now mail name verified w) = Some u ->
  users w !! normalize_email mail = None /\
  email u = normalize_email mail /\
  username u = (if String.eqb name "" && negb (String.eqb (normalize_email mail) "")
                then normalize_email mail else name) /\
  is_email_verified u = verified /\
  verification_code u = None /\
  verification_code_created u = None /\
  snd (create_user normalize_email now mail name verified w)
  = {| users := <[normalize_email mail := u]> (users w); random := random w |}.
Proof.
  unfold create_user. destruct (String.eqb mail ""); [discriminate|].
  unfold bind, objects_get, username_exists.
  destruct (users w !! normalize_email mail); [discriminate|].
  destruct (existsb _ _); [discriminate|].
  unfold save, bind, write_row, ret; cbn [fst snd].
  intros [= <-]. cbn. repeat split.
Qed.

Lemma prefix_app (s t : string) : String.prefix s (s ++ t) = true.
Proof.
  induction s as [|c s IH]; simpl; [now destruct t|].
  destruct (ascii_dec c c); [exact IH | contradiction].
Qed.

Lemma prefix_refl (s : string) : String.prefix s s = true.
Proof.
  induction s as [|c s IH]; simpl; [reflexivity|].
  destruct (ascii_dec c c); [exact IH | contradiction].
Qed.

Lemma app_not_empty (s t : string) : s <> "" -> s ++ t <> "".
Proof. destruct s; [contradiction | discriminate]. Qed.

End Create.

(** X14.  The username loop of [UserSerializer.create] always ends: with
    more iterations allowed than there are users in the table, [create]
    never runs out of them, whatever the data. *)
Theorem create_username_loop_ends
    (normalize_email : string -> string) (fuel : nat) (now : datetime)
    (validated_data : Serializers.ValidatedData) (w : World) :
  (size (users w) < fuel)%nat ->
  fst (Serializers.create normalize_email fuel now validated_data w)
  <> Serializers.OutOfFuel.
Proof.
  intros Hfuel. unfold Serializers.create, bind.
  destruct (not_str (Serializers.data_username validated_data)) eqn:Hn.
  - pose proof (free_username_ends fuel
                  (Serializers.before_at (Serializers.data_email validated_data))
                  (Serializers.before_at (Serializers.data_email validated_data))
                  1 w Hfuel) as Hends.
    destruct (Serializers.free_username _ _ _ _ w) as [[name|] w1]; cbn [fst] in *;
      [|contradiction].
    destruct (create_user _ _ _ _ _ w1) as [[u|] w2]; unfold ret; cbn; discriminate.
  - unfold ret.
    destruct (Serializers.data_username validated_data) as [name|];
      [|discriminate Hn].
    destruct (create_user _ _ _ _ _ w) as [[u|] w2]; unfold ret; cbn; discriminate.
Qed.

Lemma create_username_loop_ends_witness :
  fst (Serializers.create (fun s => s) 3 100
         {| Serializers.data_username := None;
            Serializers.data_email := "alice@other.org" |}
         (Examples.world Examples.tape_042917))
  <> Serializers.OutOfFuel.
Proof.
  apply (create_username_loop_ends (fun s => s) 3 100
           {| Serializers.data_username := None;
              Serializers.data_email := "alice@other.org" |}
           (Examples.world Examples.tape_042917)).
  vm_compute. lia.
Defined.

(** X15.  A generated username is new: when the data carry no username
    and the e-mail has a non-empty part before its first ['@'], the
    account [create] makes has a username that no user stored before
    had; it begins with that part of the e-mail, and the account is
    stored under its normalised e-mail, unverified. *)
Theorem generated_username_is_new
    (normalize_email : string -> string) (fuel : nat) (now : datetime)
    (validated_data : Serializers.ValidatedData) (w : World) (u : User) :
  not_str (Serializers.data_username validated_data) = true ->
  Serializers.before_at (Serializers.data_email validated_data) <> "" ->
  fst (Serializers.create normalize_email fuel now validated_data w)
  = Serializers.NewUser u ->
  ~ Serializers.username_taken w (username u) /\
  String.prefix (Serializers.before_at (Serializers.data_email validated_data))
    (username u) = true /\
  is_email_verified u = false /\
  users (snd (Serializers.create normalize_email fuel now validated_data w))
    !! normalize_email (Serializers.data_email validated_data) = Some u.
Proof.
  intros Hnone Hbase. unfold Serializers.create, bind. rewrite Hnone.
  set (base := Serializers.before_at (Serializers.data_email validated_data)) in *.
  pose proof (free_username_some fuel base base 1 w) as Hfree.
  destruct (Serializers.free_username fuel base base 1 w) as [[name|] w1];
    cbn [fst snd] in *; [|discriminate].
  destruct (Hfree name eq_refl) as (Hnew & Hshape & ->).
  assert (Hname : name <> "").
  { destruct Hshape as [-> | [k ->]]; [exact Hbase | now apply app_not_empty]. }
  pose proof (create_user_some normalize_email now
                (Serializers.data_email validated_data) name false w) as Hcu.
  destruct (create_user normalize_email now _ name false w) as [[u0|] w2];
    cbn [fst snd] in *; [|discriminate].
  intros [= <-].
  destruct (Hcu u0 eq_refl) as (_ & _ & Hun & Hv & _ & _ & ->).
  apply String.eqb_neq in Hname. rewrite Hname in Hun. cbn [andb] in Hun.
  rewrite Hun. repeat split.
  - exact Hnew.
  - destruct Hshape as [-> | [k ->]]; [apply prefix_refl | apply prefix_app].
  - exact Hv.
  - cbn [users]. apply lookup_insert_eq.
Qed.

Lemma generated_username_is_new_witness :
  let w := Examples.world Examples.tape_042917 in
  let data := {| Serializers.data_username := None;
                 Serializers.data_email := "alice@other.org" |} in
  let u := {| username := "alice1"; email := "alice@other.org"; updated_at := 100;
              is_email_verified := false; verification_code := None;
              verification_code_created := None |} in
  ~ Serializers.username_taken w (username u) /\
  String.prefix (Serializers.before_at (Serializers.data_email data)) (username u)
  = true /\
  is_email_verified u = false /\
  users (snd (Serializers.create (fun s => s) 3 100 data w)) !! "alice@other.org"
  = Some u.
Proof.
  apply (generated_username_is_new (fun s => s) 3 100
           {| Serializers.data_username := None;
              Serializers.data_email := "alice@other.org" |}
           (Examples.world Examples.tape_042917)).
  - reflexivity.
  - vm_compute. discriminate.
  - reflexivity.
Defined.

(** ** Registration *)

Lemma create_new_user_fields
    (normalize_email : string -> string) (fuel : nat) (now : datetime)
    (validated_data : Serializers.ValidatedData) (w : World) (u : User) :
  fst (Serializers.create normalize_email fuel now validated_data w)
  = Serializers.NewUser u ->
  is_email_verified u = false /\
  email u = normalize_email (Serializers.data_email validated_data).
Proof.
  unfold Serializers.create, bind.
  destruct (if not_str (Serializers.data_username validated_data)
            then _ else _) as [[name|] w1]; cbn [fst snd]; [|discriminate].
  pose proof (create_user_some normalize_email now
                (Serializers.data_email validated_data) name false w1) as Hcu.
  destruct (create_user normalize_email now _ name false w1) as [[u0|] w2];
    cbn [fst snd] in *; [|discriminate].
  intros [= <-]. destruct (Hcu u0 eq_refl) as (_ & He & _ & Hv & _). auto.
Qed.

(** X16.  Registration leaves an unverified account that can be verified:
    whenever [register_view] answers 201, the account it reports is the
    row stored under its e-mail, it is unverified, and it holds a code of
    decimal digits, of the configured length, stamped with the instant
    of the request; a [verify_email] request with that e-mail and code,
    no later than the timeout, is answered with success. *)
Theorem registration_can_be_verified
    (normalize_email : string -> string) (fuel : nat) (delivery_check : bool)
    (settings : Settings) (now : datetime) (mail : MailOutcome)
    (validated : option Serializers.ValidatedData) (w : World)
    (u : User) (email_status : string) (hours : Z) (note : option string) :
  let r := Registration.register_view normalize_email fuel delivery_check
             settings now mail validated w in
  fst r = Registration.Registered u email_status hours note ->
  users (snd r) !! email u = Some u /\
  is_email_verified u = false /\
  verification_code_created u = Some now /\
  exists code : string,
    verification_code u = Some code /\
    all_digits code = true /\
    String.length code = Z.to_nat (getattr (VERIFICATION_CODE_LENGTH settings) 6) /\
    forall later : datetime,
      email u <> "" ->
      code <> "" ->
      later - now <= seconds (getattr (EMAIL_VERIFICATION_TIMEOUT settings) 3600) ->
      result_kind
        (fst (Views.verify_email settings later
                {| payload_email := Some (email u); payload_code := Some code |}
                (snd r)))
      = Some Verified.
Proof.
  intros r. subst r. unfold Registration.register_view.
  destruct validated as [validated_data|]; [|discriminate].
  unfold bind.
  pose proof (create_new_user_fields normalize_email fuel now validated_data w) as Hnew.
  destruct (Serializers.create normalize_email fuel now validated_data w)
    as [[u0| |] w1]; cbn [fst snd] in *; try discriminate.
  destruct (Hnew u0 eq_refl) as [Hv0 _].
  destruct (issue_fields settings now u0 None w1) as (Hc & Ht & Hv & Hg).
  pose proof (issue_row settings now u0 None w1) as Hrow.
  assert (Hmail : email (snd (fst (Views.issue settings now u0 None w1))) = email u0).
  { unfold Views.issue, bind. rewrite utils_generate_spec. reflexivity. }
  pose proof (utils_generate_digits settings None w1) as Hd.
  assert (Hl : String.length (fst (Utils.generate_verification_code settings None w1))
               = Z.to_nat (getattr (VERIFICATION_CODE_LENGTH settings) 6)).
  { rewrite utils_generate_spec; cbn [fst].
    now rewrite join_length, length_map, draws_length. }
  rewrite <- Hg in Hd, Hl.
  destruct (Views.issue settings now u0 None w1) as [[c u1] w2]; cbn [fst snd] in *.
  destruct (EMAIL_VERIFICATION_TIMEOUT settings) as [timeout|] eqn:Hto;
    unfold ret; cbn [fst snd]; [|discriminate].
  intros [= <- _ _ _]. rewrite Hv0 in Hv.
  split; [now rewrite Hmail|]. split; [exact Hv|]. split; [exact Ht|].
  exists c. repeat split; try assumption.
  intros later Hne Hcode Hle. rewrite <- Hmail in Hrow.
  rewrite (verify_email_fetched settings later (email u1) c u1 w2 Hne Hcode Hrow).
  cbn [fst].
  apply (verify_email_user_valid settings later u1 c w2 Hv).
  apply (held_code_valid_iff settings later now u1 c Hc Ht Hcode).
  rewrite Hto. exact Hle.
Qed.

Lemma registration_can_be_verified_witness :
  let settings := {| EMAIL_VERIFICATION_TIMEOUT := Some 7200;
                     VERIFICATION_CODE_LENGTH := None |} in
  let data := {| Serializers.data_username := None;
                 Serializers.data_email := "carol@x.org" |} in
  let w := Examples.world Examples.tape_042917 in
  let r := Registration.register_view (fun s => s) 5 true settings 100 None
             (Some data) w in
  let u := {| username := "carol"; email := "carol@x.org"; updated_at := 100;
              is_email_verified := false; verification_code := Some "042917";
              verification_code_created := Some 100 |} in
  users (snd r) !! email u = Some u /\
  is_email_verified u = false /\
  verification_code_created u = Some 100 /\
  exists code : string,
    verification_code u = Some code /\
    all_digits code = true /\
    String.length code = Z.to_nat (getattr (VERIFICATION_CODE_LENGTH settings) 6) /\
    forall later : datetime,
      email u <> "" ->
      code <> "" ->
      later - 100 <= seconds (getattr (EMAIL_VERIFICATION_TIMEOUT settings) 3600) ->
      result_kind
        (fst (Views.verify_email settings later
                {| payload_email := Some (email u); payload_code := Some code |}
                (snd r)))
      = Some Verified.
Proof.
  apply (registration_can_be_verified (fun s => s) 5 true
           {| EMAIL_VERIFICATION_TIMEOUT := Some 7200;
              VERIFICATION_CODE_LENGTH := None |}
           100 None
           (Some {| Serializers.data_username := None;
                    Serializers.data_email := "carol@x.org" |})
           (Examples.world Examples.tape_042917) _ "sent" 2 None).
  reflexivity.
Defined.

(** ** Logging in: [EmailOrUsernameModelBackend.authenticate] *)

Section Authenticate.

Variable check_password : User -> string -> bool.

Lemma checked_authenticated (u v : User) (password : string) :
  Backends.checked check_password u password = Backends.Authenticated v ->
  u = v /\ check_password v password = true.
Proof.
  unfold Backends.checked. destruct (check_password u password) eqn:E;
    [|discriminate].
  intros [= <-]. auto.
Qed.

Lemma contains_at_app (s t : string) :
  Backends.contains_at (s ++ t) = Backends.contains_at s || Backends.contains_at t.
Proof.
  induction s as [|c s IH]; simpl; [reflexivity|]. now rewrite IH, orb_assoc.
Qed.

Lemma contains_at_before_at (s : string) :
  Backends.contains_at (Serializers.before_at s) = false.
Proof.
  induction s as [|c s IH]; simpl; [reflexivity|].
  destruct (Ascii.eqb c "@") eqn:E; simpl; [reflexivity|]. now rewrite E.
Qed.

Lemma pretty_N_char_not_at (x : N) : Ascii.eqb (pretty_N_char x) "@" = false.
Proof.
  unfold pretty_N_char. repeat case_match; reflexivity.
Qed.

Lemma contains_at_pretty_go (x : N) :
  forall s : string,
    Backends.contains_at (pretty_N_go x s) = Backends.contains_at s.
Proof.
  induction (N.lt_wf_0 x) as [x _ IH]; intros s.
  assert (x = 0 \/ 0 < x)%N as [-> | Hpos] by lia; [now rewrite pretty_N_go_0|].
  rewrite pretty_N_go_step by exact Hpos.
  rewrite IH by (apply N.div_lt; lia).
  simpl. now rewrite pretty_N_char_not_at.
Qed.

Lemma contains_at_pretty (k : nat) : Backends.contains_at (pretty k) = false.
Proof.
  unfold pretty, pretty_nat, pretty, pretty_N.
  destruct (decide (N.of_nat k = 0%N)); [reflexivity|].
  now rewrite contains_at_pretty_go.
Qed.

(** The rows with a given username, when exactly one row was added to a
    table in which nobody had it. *)
Lemma rows_with_new_username (m : gmap string User) (key : string) (u : User) :
  m !! key = None ->
  (forall (k : string) (row : User), m !! k = Some row -> username row <> username u) ->
  filter (fun row : User => username row = username u)
    (map_to_list (<[key := u]> m)).*2 = [u].
Proof.
  intros Hfresh Hnew.
  apply Permutation_singleton_r.
  rewrite (map_to_list_insert m key u Hfresh). cbn [fmap list_fmap snd].
  rewrite filter_cons_True by reflexivity.
  apply Permutation_skip.
  assert (E : filter (fun row : User => username row = username u) (map_to_list m).*2
              = []).
  { apply elem_of_nil_inv. intros row Hin.
    apply list_elem_of_filter in Hin as [Hrow Hin].
    apply list_elem_of_fmap in Hin as ([k row'] & -> & Hin).
    apply elem_of_map_to_list in Hin. exact (Hnew k row' Hin Hrow). }
  now rewrite E.
Qed.

End Authenticate.

Lemma create_generated
    (normalize_email : string -> string) (fuel : nat) (now : datetime)
    (validated_data : Serializers.ValidatedData) (w : World) (u : User) :
  not_str (Serializers.data_username validated_data) = true ->
  Serializers.before_at (Serializers.data_email validated_data) <> "" ->
  fst (Serializers.create normalize_email fuel now validated_data w)
  = Serializers.NewUser u ->
  ~ Serializers.username_taken w (username u) /\
  (username u = Serializers.before_at (Serializers.data_email validated_data) \/
   exists k : nat,
     username u
     = Serializers.before_at (Serializers.data_email validated_data) ++ pretty k) /\
  users w !! normalize_email (Serializers.data_email validated_data) = None /\
  snd (Serializers.create normalize_email fuel now validated_data w)
  = {| users := <[normalize_email (Serializers.data_email validated_data) := u]>
                  (users w);
       random := random w |}.
Proof.
  intros Hnone Hbase. unfold Serializers.create, bind. rewrite Hnone.
  set (base := Serializers.before_at (Serializers.data_email validated_data)) in *.
  pose proof (free_username_some fuel base base 1 w) as Hfree.
  destruct (Serializers.free_username fuel base base 1 w) as [[name|] w1];
    cbn [fst snd] in *; [|discriminate].
  destruct (Hfree name eq_refl) as (Hnew & Hshape & ->).
  assert (Hname : name <> "").
  { destruct Hshape as [-> | [k ->]]; [exact Hbase | now apply app_not_empty]. }
  pose proof (create_user_some normalize_email now
                (Serializers.data_email validated_data) name false w) as Hcu.
  destruct (create_user normalize_email now _ name false w) as [[u0|] w2];
    cbn [fst snd] in *; [|discriminate].
  intros [= <-].
  destruct (Hcu u0 eq_refl) as (Hkey & _ & Hun & _ & _ & _ & ->).
  apply String.eqb_neq in Hname. rewrite Hname in Hun. cbn [andb] in Hun.
  rewrite Hun. repeat split; assumption.
Qed.

(** X17.  [authenticate] never vouches for a password it has not checked,
    nor for a user it has not found: a user it returns passed
    [check_password] with the password given and is a stored row, found
    under the identifier as e-mail when the identifier contains ['@'],
    and otherwise the row whose username is the identifier. *)
Theorem authenticate_is_sound
    (check_password : User -> string -> bool) (identifier password : string)
    (w : World) (u : User) :
  fst (Backends.authenticate check_password identifier password w)
  = Backends.Authenticated u ->
  check_password u password = true /\
  (if Backends.contains_at identifier
   then users w !! identifier = Some u
   else username u = identifier /\ exists key : string, users w !! key = Some u).
Proof.
  unfold Backends.authenticate; cbn [fst].
  destruct (Backends.contains_at identifier).
  - destruct (users w !! identifier) as [v|]; [|discriminate].
    intros H. apply checked_authenticated in H as [-> H]. auto.
  - destruct (filter _ _) as [|v [|v' rest]] eqn:F; try discriminate.
    intros H. apply checked_authenticated in H as [-> H].
    split; [exact H|].
    assert (Hin : u ∈ filter (fun row : User => username row = identifier)
                    (map_to_list (users w)).*2) by (rewrite F; apply list_elem_of_here).
    apply list_elem_of_filter in Hin as [Hname Hin].
    apply list_elem_of_fmap in Hin as ([key row] & -> & Hin).
    apply elem_of_map_to_list in Hin. eauto.
Qed.

Lemma authenticate_is_sound_witness :
  let check := fun (_ : User) (p : string) => String.eqb p "secret" in
  check Examples.alice "secret" = true /\
  (if Backends.contains_at "alice"
   then users (Examples.world Examples.tape_042917) !! "alice" = Some Examples.alice
   else username Examples.alice = "alice" /\
        exists key : string,
          users (Examples.world Examples.tape_042917) !! key = Some Examples.alice).
Proof.
  apply (authenticate_is_sound
           (fun (_ : User) (p : string) => String.eqb p "secret")
           "alice" "secret" (Examples.world Examples.tape_042917) Examples.alice).
  reflexivity.
Defined.

(** X18.  A generated username can be used to log in: for an account
    that [create] made with a username of its own choice (the e-mail has
    a non-empty part before its first ['@']), [authenticate] with that
    username finds the account, and answers with it exactly when the
    password passes [check_password]. *)
Theorem generated_username_logs_in
    (check_password : User -> string -> bool)
    (normalize_email : string -> string) (fuel : nat) (now : datetime)
    (validated_data : Serializers.ValidatedData) (w : World) (u : User)
    (password : string) :
  not_str (Serializers.data_username validated_data) = true ->
  Serializers.before_at (Serializers.data_email validated_data) <> "" ->
  fst (Serializers.create normalize_email fuel now validated_data w)
  = Serializers.NewUser u ->
  fst (Backends.authenticate check_password (username u) password
         (snd (Serializers.create normalize_email fuel now validated_data w)))
  = (if check_password u password then Backends.Authenticated u
     else Backends.Refused).
Proof.
  intros Hnone Hbase Hnew.
  destruct (create_generated normalize_email fuel now validated_data w u
              Hnone Hbase Hnew) as (Hfree & Hshape & Hkey & ->).
  unfold Backends.authenticate; cbn [fst users].
  assert (Hat : Backends.contains_at (username u) = false).
  { destruct Hshape as [-> | [k ->]].
    - apply contains_at_before_at.
    - now rewrite contains_at_app, contains_at_before_at, contains_at_pretty. }
  rewrite Hat.
  rewrite (rows_with_new_username (users w) _ u Hkey).
  - reflexivity.
  - intros k row Hrow E. apply Hfree. exists k, row. auto.
Qed.

Lemma generated_username_logs_in_witness :
  let check := fun (_ : User) (p : string) => String.eqb p "secret" in
  let data := {| Serializers.data_username := None;
                 Serializers.data_email := "alice@other.org" |} in
  let u := {| username := "alice1"; email := "alice@other.org"; updated_at := 100;
              is_email_verified := false; verification_code := None;
              verification_code_created := None |} in
  fst (Backends.authenticate check (username u) "secret"
         (snd (Serializers.create (fun s => s) 3 100 data
                 (Examples.world Examples.tape_042917))))
  = (if check u "secret" then Backends.Authenticated u else Backends.Refused).
Proof.
  apply (generated_username_logs_in
           (fun (_ : User) (p : string) => String.eqb p "secret")
           (fun s => s) 3 100
           {| Serializers.data_username := None;
              Serializers.data_email := "alice@other.org" |}
           (Examples.world Examples.tape_042917)).
  - reflexivity.
  - vm_compute. discriminate.
  - reflexivity.
Defined.

(** ** Articles: [Article.save] under a series of updates *)

Section Articles.

Variable slugify : string -> string.

Lemma update_published_at (now : datetime) (e : Content.Update) (a : Content.Article)
    (t : datetime) :
  Content.published_at a = Some t ->
  Content.published_at (Content.update slugify now e a) = Some t.
Proof.
  intros H. unfold Content.update, Content.save; cbn. rewrite H.
  now rewrite andb_false_r.
Qed.

Lemma update_stamps (now : datetime) (e : Content.Update) (a : Content.Article) :
  Content.status (Content.update slugify now e a) = "published" ->
  is_Some (Content.published_at (Content.update slugify now e a)).
Proof.
  unfold Content.update, Content.save; cbn. intros H.
  apply String.eqb_eq in H. rewrite H.
  destruct (Content.published_at a); cbn; eauto.
Qed.

Lemma update_slug (now : datetime) (e : Content.Update) (a : Content.Article) :
  Content.slug a <> "" ->
  Content.slug (Content.update slugify now e a) = Content.slug a.
Proof.
  intros H. unfold Content.update, Content.save; cbn.
  apply String.eqb_neq in H. now rewrite H.
Qed.

End Articles.

(** X19.  The time of first publication is kept: once [published_at] is
    set, no series of updates changes it, whatever titles and statuses
    they assign; unpublishing an article and publishing it again leaves
    the first time stamp. *)
Theorem publication_time_is_kept
    (slugify : string -> string) (edits : list (datetime * Content.Update))
    (a : Content.Article) (t : datetime) :
  Content.published_at a = Some t ->
  Content.published_at (Content.updates slugify edits a) = Some t.
Proof.
  revert a. induction edits as [|[now e] rest IH]; intros a H; [exact H|].
  cbn [Content.updates]. apply IH. now apply update_published_at.
Qed.

Lemma publication_time_is_kept_witness :
  let a := {| Content.title := "Hello World"; Content.slug := "hello-world";
              Content.status := "published"; Content.published_at := Some 500;
              Content.updated_at := 500 |} in
  let edits :=
    [(600, {| Content.new_title := None; Content.new_status := Some "draft" |});
     (700, {| Content.new_title := Some "Hello Again";
              Content.new_status := Some "published" |})] in
  Content.published_at (Content.updates (fun s => s) edits a) = Some 500.
Proof.
  apply (publication_time_is_kept (fun s => s)
           [(600, {| Content.new_title := None; Content.new_status := Some "draft" |});
            (700, {| Content.new_title := Some "Hello Again";
                     Content.new_status := Some "published" |})]).
  reflexivity.
Defined.

(** X20.  A published article has a publication time: after any series
    of updates, at least one, an article whose status is ['published']
    has [published_at] set. *)
Theorem published_article_is_stamped
    (slugify : string -> string) (edits : list (datetime * Content.Update))
    (a : Content.Article) :
  edits <> [] ->
  Content.status (Content.updates slugify edits a) = "published" ->
  is_Some (Content.published_at (Content.updates slugify edits a)).
Proof.
  destruct edits as [|[now e] rest]; [contradiction|]. intros _.
  cbn [Content.updates].
  pose proof (update_stamps slugify now e a) as H.
  revert H. generalize (Content.update slugify now e a). clear.
  induction rest as [|[now e] rest IH]; intros b H; [exact H|].
  cbn [Content.updates]. apply IH. apply update_stamps.
Qed.

Lemma published_article_is_stamped_witness :
  let a := {| Content.title := "Hello World"; Content.slug := "";
              Content.status := "draft"; Content.published_at := None;
              Content.updated_at := 0 |} in
  let edits :=
    [(600, {| Content.new_title := None; Content.new_status := Some "review" |});
     (700, {| Content.new_title := None; Content.new_status := Some "published" |})] in
  is_Some (Content.published_at (Content.updates (fun s => s) edits a)).
Proof.
  apply (published_article_is_stamped (fun s => s)
           [(600, {| Content.new_title := None;
                     Content.new_status := Some "review" |});
            (700, {| Content.new_title := None;
                     Content.new_status := Some "published" |})]
           {| Content.title := "Hello World"; Content.slug := "";
              Content.status := "draft"; Content.published_at := None;
              Content.updated_at := 0 |}).
  - discriminate.
  - reflexivity.
Defined.

(** X21.  A slug is for good: an article that has a slug keeps it through
    every series of updates, also when its title changes; and
    [Category.save] likewise keeps the slug of a category that is
    renamed. *)
Theorem slug_is_kept
    (slugify : string -> string) (edits : list (datetime * Content.Update))
    (a : Content.Article) (c : Content.Category) (renamed : string) :
  (Content.slug a <> "" ->
   Content.slug (Content.updates slugify edits a) = Content.slug a) /\
  (Content.category_slug c <> "" ->
   Content.category_slug
     (Content.save_category slugify
        {| Content.category_name := renamed;
           Content.category_slug := Content.category_slug c |})
   = Content.category_slug c).
Proof.
  split.
  - revert a. induction edits as [|[now e] rest IH]; intros a H; [reflexivity|].
    cbn [Content.updates].
    rewrite IH; rewrite (update_slug slugify now e a H); [reflexivity | exact H].
  - intros H. unfold Content.save_category; cbn.
    apply String.eqb_neq in H. now rewrite H.
Qed.

Lemma slug_is_kept_witness :
  let a := {| Content.title := "Hello World"; Content.slug := "hello-world";
              Content.status := "draft"; Content.published_at := None;
              Content.updated_at := 0 |} in
  let c := {| Content.category_name := "News"; Content.category_slug := "news" |} in
  Content.slug
    (Content.updates (fun s => s)
       [(600, {| Content.new_title := Some "Goodbye";
                 Content.new_status := None |})] a)
  = "hello-world" /\
  Content.category_slug
    (Content.save_category (fun s => s)
       {| Content.category_name := "Sport"; Content.category_slug := "news" |})
  = "news".
Proof.
  destruct (slug_is_kept (fun s => s)
              [(600, {| Content.new_title := Some "Goodbye";
                        Content.new_status := None |})]
              {| Content.title := "Hello World"; Content.slug := "hello-world";
                 Content.status := "draft"; Content.published_at := None;
                 Content.updated_at := 0 |}
              {| Content.category_name := "News"; Content.category_slug := "news" |}
              "Sport") as [H1 H2].
  split; [apply H1 | apply H2]; discriminate.
Defined.

(** ** Liking an article *)

Section Likes.

Lemma same_like_true (article user : string) (row : Content.ArticleLike) :
  Content.same_like article user row = true <->
  row = {| Content.like_article := article; Content.like_user := user |}.
Proof.
  unfold Content.same_like. rewrite andb_true_iff, !String.eqb_eq.
  destruct row as [a u]; cbn. split; [intros [-> ->]; reflexivity | intros [= -> ->]; auto].
Qed.

(** In a table without duplicates the rows that [get_or_create] looks up
    are the one row, or none. *)
Lemma matching_likes (article user : string) (likes : list Content.ArticleLike) :
  NoDup likes ->
  let row := {| Content.like_article := article; Content.like_user := user |} in
  ((row ∈ likes) /\ List.filter (Content.same_like article user) likes = [row]) \/
  ((row ∉ likes) /\ List.filter (Content.same_like article user) likes = []).
Proof.
  intros ND row. subst row.
  induction likes as [|x l IH]; [right; split; [apply not_elem_of_nil | reflexivity]|].
  apply NoDup_cons in ND as [Hx ND]. specialize (IH ND). cbn [List.filter].
  destruct (Content.same_like article user x) eqn:E.
  - apply same_like_true in E. subst x. left. split; [apply list_elem_of_here|].
    destruct IH as [[Hin _] | [_ ->]]; [contradiction | reflexivity].
  - assert (x <> {| Content.like_article := article; Content.like_user := user |})
      by (intros ->; apply not_true_iff_false in E; apply E;
          now apply same_like_true).
    destruct IH as [[Hin F] | [Hin F]]; [left | right]; split; try exact F.
    + now apply list_elem_of_further.
    + rewrite not_elem_of_cons. auto.
Qed.

End Likes.

(** X22.  An article can be liked once by each user.  In a table of likes
    without duplicates, [like] answers ['liked'] and adds one row, so
    that the article's [likes_count] grows by one, when the user had not
    liked the article; it answers ['already liked'] and changes nothing
    when the user had; the table stays without duplicates, and a second
    [like] always finds the first. *)
Theorem like_counts_once
    (article user : string) (likes : list Content.ArticleLike) :
  NoDup likes ->
  let row := {| Content.like_article := article; Content.like_user := user |} in
  exists (answer : string) (likes' : list Content.ArticleLike),
    Content.like article user likes = Some (answer, likes') /\
    NoDup likes' /\
    ((row ∈ likes) -> answer = "already liked" /\ likes' = likes) /\
    ((row ∉ likes) ->
     answer = "liked" /\
     Content.get_likes_count article likes'
     = S (Content.get_likes_count article likes)) /\
    Content.like article user likes' = Some ("already liked", likes').
Proof.
  intros ND row. subst row. unfold Content.like, Content.get_or_create.
  destruct (matching_likes article user likes ND) as [[Hin F] | [Hin F]];
    cbv zeta in Hin, F; rewrite F.
  - exists "already liked", likes. rewrite F.
    split; [reflexivity|]. split; [exact ND|]. split; [auto|].
    split; [intros; contradiction | reflexivity].
  - set (likes' := (likes ++ [{| Content.like_article := article;
                                 Content.like_user := user |}])%list).
    assert (ND' : NoDup likes').
    { apply NoDup_app. repeat split; [exact ND | | apply NoDup_singleton].
      intros x Hx Hx'. apply list_elem_of_singleton in Hx'. subst x. contradiction. }
    exists "liked", likes'.
    destruct (matching_likes article user likes' ND') as [[_ F'] | [Hout _]];
      cbv zeta in *.
    + rewrite F'. split; [reflexivity|]. split; [exact ND'|].
      split; [intros; contradiction|]. split; [|reflexivity].
      intros _. split; [reflexivity|].
      unfold Content.get_likes_count, likes'. rewrite List.filter_app, length_app.
      cbn. rewrite String.eqb_refl. cbn. lia.
    + exfalso. apply Hout. unfold likes'. apply elem_of_app. right.
      apply list_elem_of_here.
Qed.

Lemma like_counts_once_witness :
  let likes := [{| Content.like_article := "hello-world";
                   Content.like_user := "bob@example.com" |}] in
  let row := {| Content.like_article := "hello-world";
                Content.like_user := "alice@example.com" |} in
  exists (answer : string) (likes' : list Content.ArticleLike),
    Content.like "hello-world" "alice@example.com" likes = Some (answer, likes') /\
    NoDup likes' /\
    ((row ∈ likes) -> answer = "already liked" /\ likes' = likes) /\
    ((row ∉ likes) ->
     answer = "liked" /\
     Content.get_likes_count "hello-world" likes'
     = S (Content.get_likes_count "hello-world" likes)) /\
    Content.like "hello-world" "alice@example.com" likes'
    = Some ("already liked", likes').
Proof.
  apply (like_counts_once "hello-world" "alice@example.com"
           [{| Content.like_article := "hello-world";
               Content.like_user := "bob@example.com" |}]).
  apply NoDup_singleton.
Defined.

(** ** The two endpoints of [api/verification_email.py], one after the other *)

Lemma send_verification_email_fetched
    (now : datetime) (mail : MailOutcome) (address : string) (pc : option string)
    (u : User) (w : World) :
  address <> "" ->
  users w !! address = Some u ->
  VerificationEmail.send_verification_email now mail
    (Some {| payload_email := Some address; payload_code := pc |}) w
  = (fst (fst (VerificationEmail.send_verification_email_user now mail u w)),
     snd (VerificationEmail.send_verification_email_user now mail u w)).
Proof.
  intros Hm Hu. unfold VerificationEmail.send_verification_email; cbn [payload_email].
  apply String.eqb_neq in Hm. rewrite Hm.
  unfold bind, objects_get. rewrite Hu.
  destruct (VerificationEmail.send_verification_email_user now mail u w)
    as [[r u'] w']. reflexivity.
Qed.

Lemma six_digits_not_empty (g : Random) :
  join (map digit_char (fst (draws g 6))) <> "".
Proof.
  pose proof (draws_length 6 g) as L.
  destruct (fst (draws g 6)); [discriminate L | discriminate].
Qed.

(** X23.  The code that [send_verification_email] issues always has six
    digits, whatever [VERIFICATION_CODE_LENGTH] says, and it works: for
    a stored, unverified user, and whether or not the mail could be
    sent, a [verify_code] request with the six digits just drawn, no
    later than the timeout, is answered ['success': True] with status
    200, and the stored row is then verified with both code columns
    cleared. *)
Theorem send_then_verify_code
    (settings : Settings) (t0 t1 : datetime) (mail : MailOutcome)
    (e : string) (u : User) (w : World) :
  e <> "" ->
  users w !! e = Some u ->
  email u = e ->
  is_email_verified u = false ->
  t1 - t0 <= seconds (getattr (EMAIL_VERIFICATION_TIMEOUT settings) 3600) ->
  let drawn := join (map digit_char (fst (draws (random w) 6))) in
  let w1 := snd (VerificationEmail.send_verification_email t0 mail
                   (Some {| payload_email := Some e; payload_code := None |}) w) in
  let r := VerificationEmail.verify_code settings t1
             (Some {| payload_email := Some e; payload_code := Some drawn |}) w1 in
  String.length drawn = 6%nat /\
  all_digits drawn = true /\
  result_kind (fst r) = Some Verified /\
  status (fst r) = 200 /\
  exists u' : User,
    users (snd r) !! e = Some u' /\
    is_email_verified u' = true /\
    verification_code u' = None /\
    verification_code_created u' = None.
Proof.
  intros He Hu Hmail Hv Hle drawn w1 r.
  assert (Hsend : exists u1 : User,
             users w1 !! e = Some u1 /\
             is_email_verified u1 = false /\
             verification_code u1 = Some drawn /\
             verification_code_created u1 = Some t0 /\
             email u1 = e).
  { subst w1. rewrite (send_verification_email_fetched t0 mail e None u w He Hu).
    cbn [snd]. unfold VerificationEmail.send_verification_email_user, is_verified.
    rewrite Hv. unfold UserModel.generate_verification_code, bind, with_random.
    fold drawn.
    destruct (draws (random w) 6) as [ds g'] eqn:E. cbn [fst] in drawn.
    unfold save, bind, write_row, ret; cbn.
    eexists. split; [destruct mail; cbn; rewrite <- Hmail; apply lookup_insert_eq|].
    cbn. auto. }
  destruct Hsend as (u1 & Hu1 & Hv1 & Hc1 & Ht1 & Hm1).
  assert (Hne : drawn <> "") by apply six_digits_not_empty.
  assert (V : is_verification_code_valid settings t1 u1 drawn = true)
    by (apply (held_code_valid_iff settings t1 t0 u1 drawn Hc1 Ht1 Hne); exact Hle).
  destruct (verify_code_user_valid settings t1 u1 drawn w1 Hv1 V)
    as (R & S & H1 & H2 & H3 & H4).
  split; [unfold drawn; now rewrite join_length, length_map, draws_length|].
  split; [apply join_all_digits|].
  subst r. rewrite (verify_code_fetched settings t1 e drawn u1 w1 He Hne Hu1).
  cbn [fst snd]. split; [exact R|]. split; [exact S|].
  exists (snd (fst (VerificationEmail.verify_code_user settings t1 u1 drawn w1))).
  rewrite <- Hm1 at 1. auto.
Qed.

Lemma send_then_verify_code_witness :
  let settings := {| EMAIL_VERIFICATION_TIMEOUT := None;
                     VERIFICATION_CODE_LENGTH := Some 4 |} in
  let w := Examples.world Examples.tape_042917 in
  let w1 := snd (VerificationEmail.send_verification_email 1000 (Some "no route")
                   (Some {| payload_email := Some "alice@example.com";
                            payload_code := None |}) w) in
  let drawn := join (map digit_char (fst (draws (random w) 6))) in
  let r := VerificationEmail.verify_code settings 2000
             (Some {| payload_email := Some "alice@example.com";
                      payload_code := Some drawn |}) w1 in
  String.length drawn = 6%nat /\
  all_digits drawn = true /\
  result_kind (fst r) = Some Verified /\
  status (fst r) = 200 /\
  exists u' : User,
    users (snd r) !! "alice@example.com" = Some u' /\
    is_email_verified u' = true /\
    verification_code u' = None /\
    verification_code_created u' = None.
Proof.
  apply (send_then_verify_code
           {| EMAIL_VERIFICATION_TIMEOUT := None; VERIFICATION_CODE_LENGTH := Some 4 |}
           1000 2000 (Some "no route") "alice@example.com" Examples.alice
           (Examples.world Examples.tape_042917)).
  - discriminate.
  - reflexivity.
  - reflexivity.
  - reflexivity.
  - vm_compute. discriminate.
Defined.
